(** * YunChat: the multi-provider chat transports of [src/App.tsx]

    A shallow embedding of the three [AIService] subclasses
    ([OpenAIService], [AnthropicService], [GoogleService]) and of
    [AIServiceFactory], followed by the properties of their streaming
    decoders, error paths and request construction.

    The TypeScript code runs on a JavaScript engine.  What belongs to the
    engine and not to the repository is either modelled concretely from its
    standard (strings as UTF-16 code units, the WHATWG UTF-8 decoder behind
    [TextDecoder], property reads, truthiness, [ToString]) or taken as an
    interface ([JSNumber], [Runtime]) that the theorems quantify over. *)

From Stdlib.Strings Require Import String Ascii Byte.
From Stdlib Require Import DecimalString.
From Stdlib Require Import List NArith ZArith Bool Lia.
Import ListNotations.

Set Implicit Arguments.
#[local] Set Warnings "-register-all".

(** ** JavaScript strings *)

(** A JavaScript string is a sequence of UTF-16 code units. *)
Definition codeunit := N.
Definition jsstring := list codeunit.

Definition jsstring_eqb (a b : jsstring) : bool :=
  if list_eq_dec N.eq_dec a b then true else false.

(** [s.startsWith(p)] *)
Fixpoint startsWith (s p : jsstring) : bool :=
  match p, s with
  | [], _ => true
  | _ :: _, [] => false
  | x :: p', y :: s' => (x =? y)%N && startsWith s' p'
  end.

(** [s.includes(p)] *)
Fixpoint includes (s p : jsstring) : bool :=
  startsWith s p ||
  match s with
  | [] => false
  | _ :: s' => includes s' p
  end.

(** [s.substring(n)] for [n] within the string or beyond it. *)
Definition substring (n : nat) (s : jsstring) : jsstring := skipn n s.

(** The lower-case form of a code unit of the ASCII range; [toLowerCase]
    acts so on a string made of such units. *)
Definition lower (c : codeunit) : codeunit :=
  (if (65 <=? c) && (c <=? 90) then c + 32 else c)%N.

Definition isASCII (c : codeunit) : bool := (c <? 128)%N.

(** The line feed, the separator of [chunk.split('\n')]. *)
Definition LF : codeunit := 10%N.

(** [s.split('\n')]: the pieces between line feeds; the empty string splits
    into one empty piece. *)
Fixpoint split_LF (s : jsstring) : list jsstring :=
  match s with
  | [] => [[]]
  | c :: r =>
      if (c =? LF)%N then [] :: split_LF r
      else match split_LF r with
           | [] => [[c]]
           | l :: ls => (c :: l) :: ls
           end
  end.

(** White space and line terminators of ECMAScript, the code units that
    [String.prototype.trim] strips. *)
Definition isWhiteSpace (c : codeunit) : bool :=
  ((9 <=? c) && (c <=? 13) || (c =? 32) || (c =? 160) || (c =? 5760)
   || (8192 <=? c) && (c <=? 8202) || (c =? 8232) || (c =? 8233)
   || (c =? 8239) || (c =? 8287) || (c =? 12288) || (c =? 65279))%N.

Fixpoint trimStart (s : jsstring) : jsstring :=
  match s with
  | c :: r => if isWhiteSpace c then trimStart r else s
  | [] => []
  end.

(** [s.trim()] *)
Definition trim (s : jsstring) : jsstring :=
  rev (trimStart (rev (trimStart s))).

(** ** UTF-8 decoding ([TextDecoder])

    The decoder of the WHATWG Encoding standard, as a state machine over
    bytes.  Errors are replaced by U+FFFD (the default, non-fatal mode). *)

Record utf8_state := {
  code_point : N;
  bytes_seen : N;
  bytes_needed : N;
  lower_boundary : N;
  upper_boundary : N
}.

Definition utf8_init : utf8_state :=
  {| code_point := 0; bytes_seen := 0; bytes_needed := 0;
     lower_boundary := 128; upper_boundary := 191 |}.

Definition REPLACEMENT : N := 65533%N.

(** A byte that arrives when no sequence is open. *)
Definition utf8_lead (b : N) : utf8_state * list N :=
  (if b <=? 127 then (utf8_init, [b])
   else if (194 <=? b) && (b <=? 223) then
     ({| code_point := N.land b 31; bytes_seen := 0; bytes_needed := 1;
         lower_boundary := 128; upper_boundary := 191 |}, [])
   else if (224 <=? b) && (b <=? 239) then
     ({| code_point := N.land b 15; bytes_seen := 0; bytes_needed := 2;
         lower_boundary := if b =? 224 then 160 else 128;
         upper_boundary := if b =? 237 then 159 else 191 |}, [])
   else if (240 <=? b) && (b <=? 244) then
     ({| code_point := N.land b 7; bytes_seen := 0; bytes_needed := 3;
         lower_boundary := if b =? 240 then 144 else 128;
         upper_boundary := if b =? 244 then 143 else 191 |}, [])
   else (utf8_init, [REPLACEMENT]))%N.

(** One byte through the decoder: the new state and the code points
    emitted.  A byte that breaks an open sequence yields U+FFFD and is then
    read again as a lead byte. *)
Definition utf8_step (st : utf8_state) (b : N) : utf8_state * list N :=
  (if bytes_needed st =? 0 then utf8_lead b
   else if (b <? lower_boundary st) || (upper_boundary st <? b) then
     let (st', out) := utf8_lead b in (st', REPLACEMENT :: out)
   else
     let cp := N.lor (N.shiftl (code_point st) 6) (N.land b 63) in
     if bytes_seen st + 1 =? bytes_needed st then (utf8_init, [cp])
     else ({| code_point := cp; bytes_seen := bytes_seen st + 1;
              bytes_needed := bytes_needed st;
              lower_boundary := 128; upper_boundary := 191 |}, []))%N.

Fixpoint utf8_run (st : utf8_state) (bs : list byte) : utf8_state * list N :=
  match bs with
  | [] => (st, [])
  | b :: r =>
      let (st1, out1) := utf8_step st (Byte.to_N b) in
      let (st2, out2) := utf8_run st1 r in
      (st2, out1 ++ out2)
  end.

(** End of input: an open sequence yields one U+FFFD. *)
Definition utf8_flush (st : utf8_state) : list N :=
  if (bytes_needed st =? 0)%N then [] else [REPLACEMENT].

(** A code point as UTF-16 code units. *)
Definition utf16_encode (cp : N) : jsstring :=
  (if cp <? 65536 then [cp]
   else [55296 + N.shiftr (cp - 65536) 10; 56320 + N.land (cp - 65536) 1023])%N.

Definition utf16 (cps : list N) : jsstring := flat_map utf16_encode cps.

Definition BOM : N := 65279%N.

(** The decoder object: the byte machine and the "BOM seen" flag. *)
Record TextDecoder := {
  decoder : utf8_state;
  BOM_seen : bool
}.

Definition new_TextDecoder : TextDecoder :=
  {| decoder := utf8_init; BOM_seen := false |}.

(** Serialising the code points of one call: the first code point of the
    stream is dropped when it is the byte order mark. *)
Definition serialize (seen : bool) (cps : list N) : bool * jsstring :=
  match cps with
  | [] => (seen, [])
  | c :: r => (true, utf16 (if negb seen && (c =? BOM)%N then r else cps))
  end.

(** [decoder.decode(value)]: without the [stream] option every call starts
    from a fresh decoder and flushes at the end of the chunk, so the result
    depends on the chunk alone. *)
Definition decode (value : list byte) : jsstring :=
  let (st, cps) := utf8_run utf8_init value in
  snd (serialize false (cps ++ utf8_flush st)).

(** [decoder.decode(value, { stream: true })]: the state is kept for the
    next call and nothing is flushed. *)
Definition decode_stream (d : TextDecoder) (value : list byte)
  : TextDecoder * jsstring :=
  let (st, cps) := utf8_run (decoder d) value in
  let (seen, out) := serialize (BOM_seen d) cps in
  ({| decoder := st; BOM_seen := seen |}, out).

(** String literals of the source, written as UTF-8 text. *)
Definition js (s : string) : jsstring := decode (list_byte_of_string s).

(** Array indices as property names. *)
Definition index_name (i : nat) : jsstring :=
  js (NilEmpty.string_of_uint (Nat.to_uint i)).

(** ** Exceptions and completions *)

Inductive exn :=
| SyntaxError                   (* raised by [JSON.parse] and [response.json()] *)
| TypeError                     (* a property read on [null] or [undefined] *)
| Error (message : jsstring).   (* [new Error(message)] *)

Inductive completion (A : Type) :=
| Normal (a : A)
| Throw (e : exn).
Arguments Normal {A} a.
Arguments Throw {A} e.

Definition bind {A B} (c : completion A) (k : A -> completion B)
  : completion B :=
  match c with
  | Normal a => k a
  | Throw e => Throw e
  end.

(** ** JavaScript values *)

(** Numbers are IEEE doubles in the engine; the program only tests them for
    truthiness, prints them and writes one integer literal. *)
Class JSNumber := {
  number : Type;
  Number_isTruthy : number -> bool;
  Number_toString : number -> jsstring;
  Number_ofZ : Z -> number
}.

Section Values.
Context {num : JSNumber}.

(** The values the program handles: what [JSON.parse] builds, and
    [undefined] for absent properties.  An object keeps its properties in
    order. *)
Inductive value :=
| VUndefined
| VNull
| VBool (b : bool)
| VNum (n : number)
| VStr (s : jsstring)
| VArr (items : list value)
| VObj (props : list (jsstring * value)).

Definition truthy (v : value) : bool :=
  match v with
  | VUndefined | VNull => false
  | VBool b => b
  | VNum n => Number_isTruthy n
  | VStr s => match s with [] => false | _ => true end
  | VArr _ | VObj _ => true
  end.

Definition isNullish (v : value) : bool :=
  match v with
  | VUndefined | VNull => true
  | _ => false
  end.

(** [a || b] on values already computed. *)
Definition or_else (a b : value) : value := if truthy a then a else b.

(** ** Property reads *)

Fixpoint lookup (k : jsstring) (props : list (jsstring * value))
  : option value :=
  match props with
  | [] => None
  | (k', v) :: r => if jsstring_eqb k k' then Some v else lookup k r
  end.

(** The conversion to a string that [+=] on a string and template
    literals apply. An array prints its items separated by commas, [null]
    and [undefined] items as nothing. An object prints through the
    [toString] it inherits; when it has a property of that name of its own,
    which is a value and cannot be called, and the [valueOf] it inherits
    returns the object itself, the conversion throws a [TypeError]. The
    conversion of an array throws when that of an item does. *)
Fixpoint ToString (v : value) : completion jsstring :=
  match v with
  | VUndefined => Normal (js "undefined")
  | VNull => Normal (js "null")
  | VBool true => Normal (js "true")
  | VBool false => Normal (js "false")
  | VNum n => Normal (Number_toString n)
  | VStr s => Normal s
  | VArr items =>
      (fix join (l : list value) : completion jsstring :=
         match l with
         | [] => Normal []
         | x :: r =>
             match
               match x with
               | VUndefined | VNull => Normal []
               | _ => ToString x
               end
             with
             | Throw e => Throw e
             | Normal s =>
                 match r with
                 | [] => Normal s
                 | _ :: _ =>
                     match join r with
                     | Throw e => Throw e
                     | Normal t => Normal (s ++ js "," ++ t)
                     end
                 end
             end
         end) items
  | VObj props =>
      match lookup (js "toString") props with
      | Some _ => Throw TypeError
      | None => Normal (js "[object Object]")
      end
  end.

(** The property [name] of a value that is neither [null] nor [undefined],
    for the names this program reads ([choices], [delta], [content],
    [message], [text], [candidates], [parts], [error], [code],
    [temperature], [top_p], [max_tokens]): none of them is defined on a
    built-in prototype, so only objects answer with something else than
    [undefined]. *)
Definition prop (v : value) (name : jsstring) : value :=
  match v with
  | VObj props =>
      match lookup name props with Some x => x | None => VUndefined end
  | _ => VUndefined
  end.

(** The element [i] of such a value: an array item, a one-unit string, or
    the property named by the index. *)
Definition item (v : value) (i : nat) : value :=
  match v with
  | VArr items => nth i items VUndefined
  | VStr s =>
      match nth_error s i with Some c => VStr [c] | None => VUndefined end
  | VObj props =>
      match lookup (index_name i) props with Some x => x | None => VUndefined end
  | _ => VUndefined
  end.

(** [v.name] and [v[i]]: reading from [null] or [undefined] throws. *)
Definition getProp (v : value) (name : jsstring) : completion value :=
  if isNullish v then Throw TypeError else Normal (prop v name).

Definition getIndex (v : value) (i : nat) : completion value :=
  if isNullish v then Throw TypeError else Normal (item v i).

(** [v?.name] and [v?.[i]]: reading from [null] or [undefined] gives
    [undefined]. *)
Definition optProp (v : value) (name : jsstring) : value :=
  if isNullish v then VUndefined else prop v name.

Definition optIndex (v : value) (i : nat) : value :=
  if isNullish v then VUndefined else item v i.

(** ** Object literals *)

(** Defining a property: an existing name keeps its place and takes the
    new value, a new name goes last. *)
Fixpoint define (k : jsstring) (v : value) (props : list (jsstring * value))
  : list (jsstring * value) :=
  match props with
  | [] => [(k, v)]
  | (k', v') :: r =>
      if jsstring_eqb k k' then (k', v) :: r else (k', v') :: define k v r
  end.

Fixpoint indexed (i : nat) (items : list value) : list (jsstring * value) :=
  match items with
  | [] => []
  | x :: r => (index_name i, x) :: indexed (S i) r
  end.

(** The own enumerable properties that [...v] copies. *)
Definition ownProps (v : value) : list (jsstring * value) :=
  match v with
  | VObj props => props
  | VArr items => indexed 0 items
  | VStr s => indexed 0 (map (fun c => VStr [c]) s)
  | _ => []
  end.

(** [{ p1, ..., pn, ...v }] *)
Definition spread (props : list (jsstring * value)) (v : value)
  : list (jsstring * value) :=
  fold_left (fun acc kv => define (fst kv) (snd kv) acc) (ownProps v) props.

End Values.

Notation "x <- c ;; k" := (bind c (fun x => k))
  (at level 61, c at next level, right associativity).

(** What the engine supplies beyond the above. *)
Class Runtime {num : JSNumber} := {
  JSON_parse : jsstring -> option value;   (* [None]: a [SyntaxError] *)
  JSON_stringify : value -> jsstring;
  toLowerCase : jsstring -> jsstring
}.

(** ** The network, as [fetch] shows it *)

Module Request.
Record t := {
  url : jsstring;
  method : jsstring;
  headers : list (jsstring * jsstring);
  body : option jsstring
}.
End Request.

(** A response body: the chunks that [reader.read()] delivers in order,
    then either [done] or a rejected read. *)
Record ReadableStream := {
  chunks : list (list byte);
  failure : option exn
}.

Record Response := {
  status : Z;
  statusText : jsstring;
  body : option ReadableStream
}.

(** [response.ok]: the status is in the range 200 to 299. *)
Definition ok (response : Response) : bool :=
  ((200 <=? status response) && (status response <=? 299))%Z.

(** The answer of the network to one [fetch]. *)
Inductive fetched :=
| Rejected (e : exn)
| Resolved (response : Response).

Section Transports.
Context {num : JSNumber} {rt : Runtime}.

(** [await response.json()]: the whole body, decoded as UTF-8 and parsed. *)
Definition json (response : Response) : completion value :=
  match body response with
  | None =>
      match JSON_parse [] with Some v => Normal v | None => Throw SyntaxError end
  | Some stream =>
      match failure stream with
      | Some e => Throw e
      | None =>
          match JSON_parse (decode (concat (chunks stream))) with
          | Some v => Normal v
          | None => Throw SyntaxError
          end
      end
  end.

(** ** What the caller passes *)

Record ChatMessage := {
  role : jsstring;
  content : jsstring
}.

Definition message_value (m : ChatMessage) : value :=
  VObj [(js "role", VStr (role m)); (js "content", VStr (content m))].

(** The [onStream] callback, seen from [chat]: given the arguments of its
    earlier invocations and the present one, it returns ([None]) or throws. *)
Definition callback := list value -> value -> option exn.

(** One call of [chat] or [validateKey]: the request issued, the arguments
    [onStream] received, in order, and how the promise settles. *)
Record run (A : Type) := {
  sent : Request.t;
  deltas : list value;
  outcome : completion A
}.

(** The fields of an [AIService] instance; every subclass adds [baseUrl]. *)
Record fields := {
  modelName : jsstring;
  apiKey : jsstring;
  baseUrl : jsstring
}.

(** ** The line-framed read loop of [OpenAIService.chat] and
    [AnthropicService.chat]

    The two methods contain the same loop, character for character, apart
    from the expression that takes the text out of a parsed event; that
    expression is the parameter [extract]. *)

Record progress := {
  fullResponse : jsstring;
  calls : list value
}.

Definition start : progress := {| fullResponse := []; calls := [] |}.

(** [fullResponse += content; onStream(content);]: when the conversion
    of [content] throws, nothing is appended and the callback is not
    reached. *)
Definition forward (onStream : callback) (st : progress) (text : value)
  : progress * option exn :=
  match ToString text with
  | Throw e => (st, Some e)
  | Normal s =>
      ({| fullResponse := fullResponse st ++ s;
          calls := calls st ++ [text] |},
       onStream (calls st) text)
  end.

Section LineFramed.
Variable extract : value -> completion value.
Variable onStream : callback.

(** The body of [for (const line of lines)]. *)
Definition on_line (st : progress) (line : jsstring) : progress :=
  if startsWith line (js "data: ") && negb (includes line (js "[DONE]")) then
    (* try *)
    match JSON_parse (substring 6 line) with
    | None => st                              (* catch: logged *)
    | Some data =>
        match extract data with
        | Throw _ => st                       (* catch: logged *)
        | Normal x =>
            let text := or_else x (VStr []) in
            fst (forward onStream st text)    (* an exception: logged *)
        end
    end
  else st.

(** [chunk.split('\n').filter(line => line.trim() !== '')] *)
Definition lines_of (chunk : jsstring) : list jsstring :=
  filter (fun line => negb (jsstring_eqb (trim line) [])) (split_LF chunk).

(** One turn of [while (reader)], after a read that delivered [value]. *)
Definition on_chunk (st : progress) (value : list byte) : progress :=
  fold_left on_line (lines_of (decode value)) st.

(** The whole loop. Without a body there is no reader and no turn. *)
Definition read_lines (b : option ReadableStream) : progress * completion unit :=
  match b with
  | None => (start, Normal tt)
  | Some stream =>
      (fold_left on_chunk (chunks stream) start,
       match failure stream with
       | None => Normal tt
       | Some e => Throw e
       end)
  end.

End LineFramed.

End Transports.

(** A failed call and a settled call. *)
Definition settle {num : JSNumber} {A} (request : Request.t)
  (seen : list value) (result : completion A) : run A :=
  {| sent := request; deltas := seen; outcome := result |}.

Definition isSome {A} (o : option A) : bool :=
  match o with Some _ => true | None => false end.

(** A parameter with a default value: the default stands in for
    [undefined]. *)
Definition defaulting (o : option jsstring) (d : jsstring) : jsstring :=
  match o with Some s => s | None => d end.

(** ** [class OpenAIService]

    In every [chat] below the outer [try { ... } catch (error) { ...; throw
    error }] logs and rethrows, so it leaves the completion as it is. *)
Module OpenAIService.
Section Methods.
Context {num : JSNumber} {rt : Runtime}.

(** [constructor(apiKey, modelName = 'gpt-3.5-turbo', baseUrl?)], with
    [this.baseUrl = baseUrl || 'https://api.openai.com/v1']. *)
Definition new (apiKey : jsstring) (modelName baseUrl : option jsstring)
  : fields :=
  {| modelName := defaulting modelName (js "gpt-3.5-turbo");
     apiKey := apiKey;
     baseUrl := match baseUrl with
                | Some (c :: u) => c :: u
                | _ => js "https://api.openai.com/v1"
                end |}.

(** [data.choices[0]?.delta?.content] *)
Definition delta_content (data : value) : completion value :=
  choices <- getProp data (js "choices") ;;
  first <- getIndex choices 0 ;;
  Normal (optProp (optProp first (js "delta")) (js "content")).

(** [data.choices[0]?.message?.content] *)
Definition message_content (data : value) : completion value :=
  choices <- getProp data (js "choices") ;;
  first <- getIndex choices 0 ;;
  Normal (optProp (optProp first (js "message")) (js "content")).

Definition request (self : fields) (messages : list ChatMessage)
  (options : value) (streaming : bool) : Request.t :=
  {| Request.url := baseUrl self ++ js "/chat/completions";
     Request.method := js "POST";
     Request.headers :=
       [(js "Content-Type", js "application/json");
        (js "Authorization", js "Bearer " ++ apiKey self)];
     Request.body := Some (JSON_stringify (VObj (spread
       [(js "model", VStr (modelName self));
        (js "messages", VArr (map message_value messages));
        (js "stream", VBool streaming)]
       options))) |}.

(** The branch [if (!response.ok)]. *)
Definition reject (response : Response) : completion value :=
  errorData <- json response ;;
  error <- getProp errorData (js "error") ;;
  if truthy error then
    message <- getProp error (js "message") ;;
    shown <- (if truthy message then Normal message
              else getProp error (js "code")) ;;
    text <- ToString shown ;;
    Throw (Error (js "OpenAI API错误: " ++ text))
  else Throw (Error (js "OpenAI API错误: " ++ statusText response)).

Definition chat (self : fields) (messages : list ChatMessage)
  (options : value) (onStream : option callback) (net : fetched)
  : run value :=
  let request := request self messages options (isSome onStream) in
  match net with
  | Rejected e => settle request [] (Throw e)
  | Resolved response =>
      if negb (ok response) then settle request [] (reject response)
      else
        match onStream with
        | Some f =>
            let (st, read) := read_lines delta_content f (body response) in
            settle request (calls st)
              (_ <- read ;; Normal (VStr (fullResponse st)))
        | None =>
            settle request []
              (data <- json response ;;
               text <- message_content data ;;
               Normal (or_else text (VStr [])))
        end
  end.

Definition validateKey (self : fields) (net : fetched) : run bool :=
  let request :=
    {| Request.url := baseUrl self ++ js "/models";
       Request.method := js "GET";
       Request.headers := [(js "Authorization", js "Bearer " ++ apiKey self)];
       Request.body := None |} in
  match net with
  | Resolved response => settle request [] (Normal (ok response))
  | Rejected _ => settle request [] (Normal false)      (* catch *)
  end.

End Methods.
End OpenAIService.

(** ** [class AnthropicService] *)
Module AnthropicService.
Section Methods.
Context {num : JSNumber} {rt : Runtime}.

(** [constructor(apiKey, modelName = 'claude-3-opus')]; [baseUrl] is a
    field initialiser. *)
Definition new (apiKey : jsstring) (modelName : option jsstring) : fields :=
  {| modelName := defaulting modelName (js "claude-3-opus");
     apiKey := apiKey;
     baseUrl := js "https://api.anthropic.com/v1" |}.

(** [data.content?.[0]?.text] *)
Definition event_text (data : value) : completion value :=
  blocks <- getProp data (js "content") ;;
  Normal (optProp (optIndex blocks 0) (js "text")).

(** [data.content[0]?.text] *)
Definition reply_text (data : value) : completion value :=
  blocks <- getProp data (js "content") ;;
  first <- getIndex blocks 0 ;;
  Normal (optProp first (js "text")).

Definition request (self : fields) (messages : list ChatMessage)
  (options : value) (streaming : bool) : Request.t :=
  {| Request.url := baseUrl self ++ js "/messages";
     Request.method := js "POST";
     Request.headers :=
       [(js "Content-Type", js "application/json");
        (js "x-api-key", apiKey self);
        (js "anthropic-version", js "2023-06-01");
        (js "anthropic-beta", js "messages-2023-12-15")];
     Request.body := Some (JSON_stringify (VObj (spread
       [(js "model", VStr (modelName self));
        (js "messages", VArr (map message_value messages));
        (js "max_tokens",
         or_else (optProp options (js "max_tokens")) (VNum (Number_ofZ 1000)));
        (js "stream", VBool streaming)]
       options))) |}.

(** The branch [if (!response.ok)]. *)
Definition reject (response : Response) : completion value :=
  errorData <- json response ;;
  error <- getProp errorData (js "error") ;;
  text <- ToString (or_else (optProp error (js "message"))
                            (VStr (statusText response))) ;;
  Throw (Error (js "Anthropic API错误: " ++ text)).

Definition chat (self : fields) (messages : list ChatMessage)
  (options : value) (onStream : option callback) (net : fetched)
  : run value :=
  let request := request self messages options (isSome onStream) in
  match net with
  | Rejected e => settle request [] (Throw e)
  | Resolved response =>
      if negb (ok response) then settle request [] (reject response)
      else
        match onStream with
        | Some f =>
            let (st, read) := read_lines event_text f (body response) in
            settle request (calls st)
              (_ <- read ;; Normal (VStr (fullResponse st)))
        | None =>
            settle request []
              (data <- json response ;;
               text <- reply_text data ;;
               Normal (or_else text (VStr [])))
        end
  end.

Definition validateKey (self : fields) (net : fetched) : run bool :=
  let request :=
    {| Request.url := baseUrl self ++ js "/models";
       Request.method := js "GET";
       Request.headers := [(js "x-api-key", apiKey self)];
       Request.body := None |} in
  match net with
  | Resolved response => settle request [] (Normal (ok response))
  | Rejected _ => settle request [] (Normal false)      (* catch *)
  end.

End Methods.
End AnthropicService.

(** ** [class GoogleService] *)
Module GoogleService.
Section Methods.
Context {num : JSNumber} {rt : Runtime}.

(** [constructor(apiKey, modelName = 'gemini-pro')]; [baseUrl] is a field
    initialiser. *)
Definition new (apiKey : jsstring) (modelName : option jsstring) : fields :=
  {| modelName := defaulting modelName (js "gemini-pro");
     apiKey := apiKey;
     baseUrl := js "https://generativelanguage.googleapis.com/v1beta" |}.

(** [m => ({ role: m.role === 'assistant' ? 'model' : 'user',
             parts: [{ text: m.content }] })] *)
Definition content_value (m : ChatMessage) : value :=
  VObj [(js "role",
         VStr (if jsstring_eqb (role m) (js "assistant") then js "model"
               else js "user"));
        (js "parts", VArr [VObj [(js "text", VStr (content m))]])].

Definition request (self : fields) (messages : list ChatMessage)
  (options : value) : Request.t :=
  {| Request.url :=
       baseUrl self ++ js "/models/" ++ modelName self ++
       js ":streamGenerateContent?key=" ++ apiKey self;
     Request.method := js "POST";
     Request.headers := [(js "Content-Type", js "application/json")];
     Request.body := Some (JSON_stringify (VObj
       [(js "contents", VArr (map content_value messages));
        (js "generationConfig", VObj
          [(js "temperature", optProp options (js "temperature"));
           (js "topP", optProp options (js "top_p"));
           (js "maxOutputTokens", optProp options (js "max_tokens"))])])) |}.

(** The branch [if (!response.ok)]. *)
Definition reject (response : Response) : completion value :=
  errorData <- json response ;;
  error <- getProp errorData (js "error") ;;
  text <- ToString (or_else (optProp error (js "message"))
                            (VStr (statusText response))) ;;
  Throw (Error (js "Google API错误: " ++ text)).

(** The first loop: [buffer += decoder.decode(value, { stream: true })]
    for every chunk read. *)
Fixpoint buffered (d : TextDecoder) (buffer : jsstring)
  (values : list (list byte)) : jsstring :=
  match values with
  | [] => buffer
  | value :: rest =>
      let (d', text) := decode_stream d value in
      buffered d' (buffer ++ text) rest
  end.

(** The buffer when the loop ends; a rejected read ends the call.  Without
    a body there is no reader and the buffer stays empty. *)
Definition read_all (b : option ReadableStream) : completion jsstring :=
  match b with
  | None => Normal []
  | Some stream =>
      match failure stream with
      | Some e => Throw e
      | None => Normal (buffered new_TextDecoder [] (chunks stream))
      end
  end.

(** [data.candidates && data.candidates[0]?.content?.parts?.[0]?.text] *)
Definition has_text (data : value) : completion value :=
  candidates <- getProp data (js "candidates") ;;
  if truthy candidates then
    candidates <- getProp data (js "candidates") ;;
    first <- getIndex candidates 0 ;;
    Normal (optProp (optIndex (optProp (optProp first (js "content"))
                                       (js "parts")) 0) (js "text"))
  else Normal candidates.

(** [data.candidates[0].content.parts[0].text] *)
Definition part_text (data : value) : completion value :=
  candidates <- getProp data (js "candidates") ;;
  first <- getIndex candidates 0 ;;
  c <- getProp first (js "content") ;;
  parts <- getProp c (js "parts") ;;
  part <- getIndex parts 0 ;;
  getProp part (js "text").

(** [for (const data of responseArray)]; an exception leaves the loop. *)
Fixpoint for_of (onStream : callback) (responseArray : list value)
  (st : progress) : progress * completion unit :=
  match responseArray with
  | [] => (st, Normal tt)
  | data :: rest =>
      match has_text data with
      | Throw e => (st, Throw e)
      | Normal test =>
          if truthy test then
            match part_text data with
            | Throw e => (st, Throw e)
            | Normal text =>
                let (st', thrown) := forward onStream st text in
                match thrown with
                | Some e => (st', Throw e)
                | None => for_of onStream rest st'
                end
            end
          else for_of onStream rest st
      end
  end.

(** The [try] block that follows the first loop. *)
Definition parse_buffer (onStream : callback) (jsonArrayString : jsstring)
  : progress * completion unit :=
  match JSON_parse jsonArrayString with
  | None => (start, Throw SyntaxError)
  | Some responseArray =>
      match responseArray with
      | VArr items => for_of onStream items start
      | _ => (start, Throw (Error (js "Google API 返回了非预期的格式")))
      end
  end.

Definition read_buffer (onStream : callback) (b : option ReadableStream)
  : progress * completion value :=
  match read_all b with
  | Throw e => (start, Throw e)
  | Normal buffer =>
      let jsonArrayString := trim buffer in
      let (st, tried) := parse_buffer onStream jsonArrayString in
      match tried with
      | Throw _ =>                                          (* catch (e) *)
          (st, Throw (Error (js "解析 Google API 响应失败")))
      | Normal _ => (st, Normal (VStr (fullResponse st)))
      end
  end.

(** [data.candidates?.[0]?.content?.parts?.[0]?.text] *)
Definition reply_text (data : value) : completion value :=
  candidates <- getProp data (js "candidates") ;;
  Normal (optProp (optIndex (optProp (optProp (optIndex candidates 0)
                    (js "content")) (js "parts")) 0) (js "text")).

Definition chat (self : fields) (messages : list ChatMessage)
  (options : value) (onStream : option callback) (net : fetched)
  : run value :=
  let request := request self messages options in
  match net with
  | Rejected e => settle request [] (Throw e)
  | Resolved response =>
      if negb (ok response) then settle request [] (reject response)
      else
        match onStream with
        | Some f =>
            let (st, result) := read_buffer f (body response) in
            settle request (calls st) result
        | None =>
            settle request []
              (data <- json response ;;
               text <- reply_text data ;;
               Normal (or_else text (VStr [])))
        end
  end.

Definition validateKey (self : fields) (net : fetched) : run bool :=
  let request :=
    {| Request.url := baseUrl self ++ js "/models?key=" ++ apiKey self;
       Request.method := js "GET";
       Request.headers := [];
       Request.body := None |} in
  match net with
  | Resolved response => settle request [] (Normal (ok response))
  | Rejected _ => settle request [] (Normal false)      (* catch *)
  end.

End Methods.
End GoogleService.

(** ** [abstract class AIService] and [class AIServiceFactory] *)

(** An instance is one of the three subclasses with its fields. *)
Inductive AIService :=
| OpenAI (self : fields)
| Anthropic (self : fields)
| Google (self : fields).

Section Dispatch.
Context {num : JSNumber} {rt : Runtime}.

Definition chat (service : AIService) :=
  match service with
  | OpenAI self => OpenAIService.chat self
  | Anthropic self => AnthropicService.chat self
  | Google self => GoogleService.chat self
  end.

Definition validateKey (service : AIService) :=
  match service with
  | OpenAI self => OpenAIService.validateKey self
  | Anthropic self => AnthropicService.validateKey self
  | Google self => GoogleService.validateKey self
  end.

(** [getModelName()], inherited by the three classes. *)
Definition getModelName (service : AIService) : jsstring :=
  match service with
  | OpenAI self | Anthropic self | Google self => modelName self
  end.

End Dispatch.

Module AIServiceFactory.
Section Methods.
Context {num : JSNumber} {rt : Runtime}.

(** [static createService(type, apiKey, modelName?, baseUrl?)]: a [switch]
    on [type.toLowerCase()]. Nothing here reaches [fetch]: the result is a
    value or an exception. *)
Definition createService (type apiKey : jsstring)
  (modelName baseUrl : option jsstring) : completion AIService :=
  let tag := toLowerCase type in
  if jsstring_eqb tag (js "openai") then
    Normal (OpenAI (OpenAIService.new apiKey modelName baseUrl))
  else if jsstring_eqb tag (js "anthropic") then
    Normal (Anthropic (AnthropicService.new apiKey modelName))
  else if jsstring_eqb tag (js "google") then
    Normal (Google (GoogleService.new apiKey modelName))
  else Throw (Error (js "Unsupported AI service type: " ++ type)).

End Methods.
End AIServiceFactory.

(** ** [MainArea.tsx]: the caller of [chat] in [handleSendMessage] *)
Module MainArea.
Section Handlers.
Context {num : JSNumber}.

(** A message of the view. *)
Record Message := {
  id : jsstring;
  role : jsstring;
  content : jsstring
}.

Definition isUndefined (v : value) : bool :=
  match v with VUndefined => true | _ => false end.

(** The options object built for the provider. [aiConfig] is the state
    of the view: the default object, or a saved value that was truthy, so
    it is never [null] or [undefined] and [aiConfig.name] is [prop]. For
    Google the properties that are [undefined] are deleted. A provider
    name other than the three leaves the initial [{}]. *)
Definition apiOptions (providerName : jsstring) (aiConfig : value) : value :=
  if jsstring_eqb providerName (js "openai") then
    VObj [(js "temperature", prop aiConfig (js "temperature"));
          (js "max_tokens", prop aiConfig (js "max_tokens"));
          (js "top_p", prop aiConfig (js "top_p"));
          (js "frequency_penalty", prop aiConfig (js "frequency_penalty"));
          (js "presence_penalty", prop aiConfig (js "presence_penalty"))]
  else if jsstring_eqb providerName (js "anthropic") then
    VObj [(js "temperature", prop aiConfig (js "temperature"));
          (js "max_tokens", prop aiConfig (js "max_tokens"));
          (js "top_p", prop aiConfig (js "top_p"))]
  else if jsstring_eqb providerName (js "google") then
    VObj (filter (fun kv => negb (isUndefined (snd kv)))
         [(js "temperature", prop aiConfig (js "temperature"));
          (js "topP", prop aiConfig (js "top_p"));
          (js "maxOutputTokens", prop aiConfig (js "max_tokens"))])
  else VObj [].

(** The state updater of the callback:
    [latestMessages.map(msg => msg.id === assistantId
       ? { ...msg, content: msg.content + chunk } : msg)]. *)
Definition append_chunk (assistantId chunk : jsstring)
  (latestMessages : list Message) : list Message :=
  map (fun msg =>
         if jsstring_eqb (id msg) assistantId then
           {| id := id msg; role := role msg; content := content msg ++ chunk |}
         else msg)
      latestMessages.

(** The callback passed to [chat]:
    [(chunk) => { if (chunk && chunk.trim() !== '') setMessages(...) }],
    as the new messages of the view and the exception thrown, if any. A
    truthy chunk that is not a string has no [trim] to call. *)
Definition onChunk (assistantId : jsstring) (chunk : value)
  (messages : list Message) : list Message * option exn :=
  if truthy chunk then
    match chunk with
    | VStr s =>
        if negb (jsstring_eqb (trim s) []) then
          (append_chunk assistantId s messages, None)
        else (messages, None)
    | _ => (messages, Some TypeError)
    end
  else (messages, None).

(** The view after the callback received [chunks] one after another. *)
Definition view (assistantId : jsstring) (chunks : list value)
  (messages : list Message) : list Message :=
  fold_left (fun latest chunk => fst (onChunk assistantId chunk latest))
            chunks messages.

(** The same callback as [chat] sees it. *)
Definition listener (assistantId : jsstring) : callback :=
  fun _ chunk => snd (onChunk assistantId chunk []).

End Handlers.
End MainArea.

(** ** [ModelConfigTab.tsx]: the handlers of the model list *)
Module ModelConfigTab.

(** [modelName] is a string by its type; [handleRemoveModel] can leave
    it [undefined], which is [None] here. *)
Record ProviderConfig := {
  apiKey : jsstring;
  baseUrl : jsstring;
  modelName : option jsstring;
  availableModels : list jsstring
}.

(** [handleAddModel]: the configuration passed to [onConfigChange], or
    [None] when the handler does nothing. *)
Definition handleAddModel (customModelName : jsstring)
  (config : ProviderConfig) : option ProviderConfig :=
  match trim customModelName with
  | [] => None
  | name =>
      Some {| apiKey := apiKey config;
              baseUrl := baseUrl config;
              modelName := Some name;
              availableModels := availableModels config ++ [name] |}
  end.

(** [handleRemoveModel] *)
Definition handleRemoveModel (config : ProviderConfig)
  : option ProviderConfig :=
  match modelName config with
  | Some (c :: n) =>
      if (1 <? length (availableModels config))%nat then
        let newModels :=
          filter (fun m => negb (jsstring_eqb m (c :: n)))
                 (availableModels config) in
        Some {| apiKey := apiKey config;
                baseUrl := baseUrl config;
                modelName := hd_error newModels;
                availableModels := newModels |}
      else None
  | _ => None
  end.

End ModelConfigTab.

(** ** [App.tsx]: the history list *)
Module App.

Record HistoryItem := {
  id : jsstring;
  icon : jsstring;
  text : jsstring
}.

(** [handleFirstMessage]: the state updater [prev => [newItem, ...prev]];
    [newId] is what [uuidv4()] returned. *)
Definition handleFirstMessage (newId firstMessage : jsstring)
  (prev : list HistoryItem) : list HistoryItem :=
  {| id := newId; icon := js "💬"; text := firstMessage |} :: prev.

(** The delete button: [prev => prev.filter(i => i.id !== item.id)]. *)
Definition deleteItem (itemId : jsstring) (prev : list HistoryItem)
  : list HistoryItem :=
  filter (fun i => negb (jsstring_eqb (id i) itemId)) prev.

End App.

(** ** A small engine for running the code on concrete inputs

    An instance of the two interfaces that covers the inputs of the examples
    below: numbers are integers, [JSON.parse] reads the JSON grammar without
    fractions, exponents and [\u] escapes (it rejects those), and
    [toLowerCase] maps the letters A to Z. On the text it accepts it builds
    the value that [JSON.parse] builds. *)
Module Mini.

Definition digits (z : Z) : jsstring :=
  js (NilEmpty.string_of_int (Z.to_int z)).

#[export] Instance num : JSNumber := {
  number := Z;
  Number_isTruthy := fun z => negb (z =? 0)%Z;
  Number_toString := digits;
  Number_ofZ := fun z => z
}.

Definition isJSONSpace (c : codeunit) : bool :=
  ((c =? 32) || (c =? 9) || (c =? 10) || (c =? 13))%N.

Fixpoint skip (s : jsstring) : jsstring :=
  match s with
  | c :: r => if isJSONSpace c then skip r else s
  | [] => []
  end.

(** The characters of a string literal, after the opening quote. *)
Fixpoint chars (s : jsstring) : option (jsstring * jsstring) :=
  match s with
  | [] => None
  | c :: r =>
      if (c =? 34)%N then Some ([], r)
      else if (c =? 92)%N then
        match r with
        | e :: r' =>
            let unescaped :=
              (if e =? 34 then Some 34 else if e =? 92 then Some 92
               else if e =? 47 then Some 47 else if e =? 98 then Some 8
               else if e =? 102 then Some 12 else if e =? 110 then Some 10
               else if e =? 114 then Some 13 else if e =? 116 then Some 9
               else None)%N in
            match unescaped, chars r' with
            | Some u, Some (text, rest) => Some (u :: text, rest)
            | _, _ => None
            end
        | [] => None
        end
      else if (c <? 32)%N then None
      else match chars r with
           | Some (text, rest) => Some (c :: text, rest)
           | None => None
           end
  end.

Definition isDigit (c : codeunit) : bool := ((48 <=? c) && (c <=? 57))%N.

Fixpoint natural (acc : Z) (s : jsstring) : Z * jsstring :=
  match s with
  | c :: r =>
      if isDigit c then natural (10 * acc + Z.of_N (c - 48)) r else (acc, s)
  | [] => (acc, [])
  end.

(** An integer literal: no leading zero, no fraction, no exponent. *)
Definition integer (s : jsstring) : option (Z * jsstring) :=
  let (negative, s1) :=
    match s with
    | c :: r => if (c =? 45)%N then (true, r) else (false, s)
    | [] => (false, s)
    end in
  match s1 with
  | d :: r =>
      if isDigit d then
        let (n, rest) := if (d =? 48)%N then (0%Z, r) else natural 0 s1 in
        match rest with
        | x :: _ =>
            if isDigit x || (x =? 46)%N || (x =? 101)%N || (x =? 69)%N
            then None
            else Some (if negative then (- n)%Z else n, rest)
        | [] => Some (if negative then (- n)%Z else n, rest)
        end
      else None
  | [] => None
  end.

Definition keyword (word : string) (v : value) (s : jsstring)
  : option (value * jsstring) :=
  if startsWith s (js word) then Some (v, skipn (length (js word)) s)
  else None.

Fixpoint element (fuel : nat) (s : jsstring) : option (value * jsstring) :=
  match fuel with
  | O => None
  | S fuel =>
      match skip s with
      | [] => None
      | c :: r =>
          if (c =? 123)%N then
            match skip r with
            | x :: r' =>
                if (x =? 125)%N then Some (VObj [], r') else members fuel [] r
            | [] => None
            end
          else if (c =? 91)%N then
            match skip r with
            | x :: r' =>
                if (x =? 93)%N then Some (VArr [], r') else elements fuel [] r
            | [] => None
            end
          else if (c =? 34)%N then
            match chars r with
            | Some (text, rest) => Some (VStr text, rest)
            | None => None
            end
          else if (c =? 116)%N then keyword "true" (VBool true) (c :: r)
          else if (c =? 102)%N then keyword "false" (VBool false) (c :: r)
          else if (c =? 110)%N then keyword "null" VNull (c :: r)
          else match integer (c :: r) with
               | Some (n, rest) => Some (VNum n, rest)
               | None => None
               end
      end
  end
with elements (fuel : nat) (acc : list value) (s : jsstring)
  : option (value * jsstring) :=
  match fuel with
  | O => None
  | S fuel =>
      match element fuel s with
      | Some (v, rest) =>
          match skip rest with
          | c :: r =>
              if (c =? 44)%N then elements fuel (acc ++ [v]) r
              else if (c =? 93)%N then Some (VArr (acc ++ [v]), r)
              else None
          | [] => None
          end
      | None => None
      end
  end
with members (fuel : nat) (acc : list (jsstring * value)) (s : jsstring)
  : option (value * jsstring) :=
  match fuel with
  | O => None
  | S fuel =>
      match skip s with
      | q :: r =>
          if (q =? 34)%N then
            match chars r with
            | Some (key, rest) =>
                match skip rest with
                | colon :: r1 =>
                    if (colon =? 58)%N then
                      match element fuel r1 with
                      | Some (v, rest1) =>
                          match skip rest1 with
                          | c :: r2 =>
                              if (c =? 44)%N then
                                members fuel (define key v acc) r2
                              else if (c =? 125)%N then
                                Some (VObj (define key v acc), r2)
                              else None
                          | [] => None
                          end
                      | None => None
                      end
                    else None
                | [] => None
                end
            | None => None
            end
          else None
      | [] => None
      end
  end.

Definition parse (text : jsstring) : option value :=
  match element (S (length text)) text with
  | Some (v, rest) => match skip rest with [] => Some v | _ => None end
  | None => None
  end.

(** A string literal of [JSON.stringify]: quotation mark (34), reverse
    solidus (92) and line feed escaped. *)
Definition quote (s : jsstring) : jsstring :=
  [34%N] ++
  flat_map (fun c => if (c =? 34)%N then [92; 34]%N else
                     if (c =? 92)%N then [92; 92]%N else
                     if (c =? 10)%N then [92; 110]%N else [c]) s ++
  [34%N].

(** [JSON.stringify] on a value, [None] where it gives [undefined]: a
    property whose value is [undefined] is left out, an [undefined] array
    item is written [null]. *)
Fixpoint stringify (v : value) : option jsstring :=
  match v with
  | VUndefined => None
  | VNull => Some (js "null")
  | VBool true => Some (js "true")
  | VBool false => Some (js "false")
  | VNum n => Some (digits n)
  | VStr s => Some (quote s)
  | VArr items =>
      Some (js "[" ++
        (fix join (l : list value) : jsstring :=
           match l with
           | [] => []
           | x :: r =>
               match stringify x with Some t => t | None => js "null" end ++
               match r with [] => [] | _ :: _ => js "," ++ join r end
           end) items ++ js "]")
  | VObj props =>
      Some (js "{" ++
        (fix join (first : bool) (l : list (jsstring * value)) : jsstring :=
           match l with
           | [] => []
           | (k, x) :: r =>
               match stringify x with
               | Some t =>
                   (if first then [] else js ",") ++ quote k ++ js ":" ++ t ++
                   join false r
               | None => join first r
               end
           end) true props ++ js "}")
  end.

#[export] Instance engine : Runtime := {
  JSON_parse := parse;
  JSON_stringify := fun v =>
    match stringify v with Some t => t | None => js "undefined" end;
  toLowerCase := map lower
}.

(** The examples write a JSON text with apostrophes where the text has
    quotation marks: [wire] gives the bytes of the text meant, [text] the
    string. *)
Definition straight (b : byte) : byte :=
  if Byte.eqb b x27 then x22 else b.

Definition wire (s : string) : list byte :=
  map straight (list_byte_of_string s).

Definition text (s : string) : jsstring := decode (wire s).

(** A successful response with the given chunks, and a callback that
    returns. *)
Definition delivered_ok (values : list (list byte)) : Response :=
  {| status := 200; statusText := js "OK";
     body := Some {| chunks := values; failure := None |} |}.

Definition streamed (values : list (list byte)) : fetched :=
  Resolved (delivered_ok values).

Definition failed (code : Z) (reason : string) (payload : list byte)
  : Response :=
  {| status := code; statusText := js reason;
     body := Some {| chunks := [payload]; failure := None |} |}.

Definition listener : callback := fun _ _ => None.

(** A string value. *)
Definition str (s : string) : value := VStr (js s).

(** A number value. *)
Definition int (z : Z) : value := VNum z.

(** The bytes of a line ended by a line feed. *)
Definition line (s : string) : list byte := wire s ++ [x0a].

End Mini.

(** ** The vocabulary of the statements *)

(** Lines joined by line feeds: the text of a chunk made of whole lines. *)
Fixpoint join_LF (ls : list jsstring) : jsstring :=
  match ls with
  | [] => []
  | [l] => l
  | l :: r => l ++ LF :: join_LF r
  end.

Definition LF_free (line : jsstring) : Prop := ~ In LF line.

Definition LF_freeb (line : jsstring) : bool :=
  negb (existsb (N.eqb LF) line).

(** A line that the filter of the read loop drops. *)
Definition blank (line : jsstring) : Prop := trim line = [].

Section Vocabulary.
Context {num : JSNumber} {rt : Runtime}.

(** [deltas.reduce((all, d) => all + d, '')]: the concatenation of the
    arguments the callback received, in the order of the calls; it throws
    when the conversion of one of them does. *)
Definition concatenation (ds : list value) : completion jsstring :=
  fold_left (fun all d =>
               a <- all ;; s <- ToString d ;; Normal (a ++ s))
            ds (Normal []).

(** Whether the conversion of a value to a string returns, and the string
    it returns then. *)
Definition converts (v : value) : bool :=
  match ToString v with Normal _ => true | Throw _ => false end.

Definition printed (v : value) : jsstring :=
  match ToString v with Normal s => s | Throw _ => [] end.

(** What one line adds to the calls of the callback, by the text of
    [on_line]: nothing, or one argument. *)
Definition line_deltas (extract : value -> completion value)
  (line : jsstring) : list value :=
  if startsWith line (js "data: ") && negb (includes line (js "[DONE]")) then
    match JSON_parse (substring 6 line) with
    | None => []
    | Some data =>
        match extract data with
        | Throw _ => []
        | Normal x =>
            if converts (or_else x (VStr [])) then [or_else x (VStr [])]
            else []
        end
    end
  else [].

(** What one chunk adds: its lines in order, each on its own. *)
Definition chunk_deltas (extract : value -> completion value)
  (piece : list byte) : list value :=
  flat_map (line_deltas extract) (split_LF (decode piece)).

(** The progress after forwarding the arguments [ds] one after another. *)
Definition push (st : progress) (ds : list value) : progress :=
  {| fullResponse := fullResponse st ++ flat_map printed ds;
     calls := calls st ++ ds |}.



(** The identifiers [createService] knows. *)
Definition provider_ids : list jsstring :=
  [js "openai"; js "anthropic"; js "google"].


(** Chunks that end where lines end: chunk by chunk, the lines that the
    decoded text joins. *)
Definition aligned (values : list (list byte)) (groups : list (list jsstring))
  : Prop :=
  map decode values = map join_LF groups /\
  Forall (Forall LF_free) groups.

(** The text path of each line-framed transport. *)
Definition extract_of (service : AIService) : value -> completion value :=
  match service with
  | OpenAI _ => OpenAIService.delta_content
  | Anthropic _ => AnthropicService.event_text
  | Google _ => fun _ => Normal VUndefined
  end.

Definition line_framed (service : AIService) : Prop :=
  match service with
  | OpenAI _ | Anthropic _ => True
  | Google _ => False
  end.

(** The prefix of the message of a rejected call. *)
Definition error_prefix (service : AIService) : jsstring :=
  match service with
  | OpenAI _ => js "OpenAI API错误: "
  | Anthropic _ => js "Anthropic API错误: "
  | Google _ => js "Google API错误: "
  end.

(** A response with the given status and body chunks, read to the end. *)
Definition delivered (code : Z) (reason : jsstring)
  (values : list (list byte)) : Response :=
  {| status := code; statusText := reason;
     body := Some {| chunks := values; failure := None |} |}.

End Vocabulary.

(** Whether some call of the callback threw, when it received [ds] one
    after another following the calls [before]. *)
Fixpoint threw {num : JSNumber} (f : callback) (before ds : list value)
  : bool :=
  match ds with
  | [] => false
  | d :: rest => isSome (f before d) || threw f (before ++ [d]) rest
  end.

(** The text that the view of [MainArea] shows for the chunks it
    received: the strings that are not blank, joined. *)
Definition displayed {num : JSNumber} (chunks : list value) : jsstring :=
  flat_map (fun chunk =>
              match chunk with
              | VStr s => if jsstring_eqb (trim s) [] then [] else s
              | _ => []
              end)
           chunks.

(** The text of one element of the array of Google, by the test of the
    loop: the value of
    [data.candidates && data.candidates[0]?.content?.parts?.[0]?.text]
    for an element that is not [null]. *)
Definition element_text {num : JSNumber} (data : value) : value :=
  let candidates := prop data (js "candidates") in
  if truthy candidates then
    optProp (optIndex (optProp (optProp (item candidates 0) (js "content"))
                               (js "parts")) 0) (js "text")
  else candidates.

(** * Properties *)

(** The examples run on the small engine; the theorems are stated for
    every engine. *)
#[local] Existing Instance Mini.num.
#[local] Existing Instance Mini.engine.

(** ** Strings *)

Lemma jsstring_eqb_eq a b : jsstring_eqb a b = true <-> a = b.
Proof.
  unfold jsstring_eqb. destruct (list_eq_dec N.eq_dec a b); split; congruence.
Qed.

Lemma jsstring_eqb_refl a : jsstring_eqb a a = true.
Proof. now apply jsstring_eqb_eq. Qed.

Lemma jsstring_eqb_neq a b : a <> b -> jsstring_eqb a b = false.
Proof.
  intros H. destruct (jsstring_eqb a b) eqn:E; [|reflexivity].
  apply jsstring_eqb_eq in E. contradiction.
Qed.

Lemma js_data : js "data: " = [100; 97; 116; 97; 58; 32]%N.
Proof. reflexivity. Qed.

Lemma trimStart_nil s : trimStart s = [] -> forallb isWhiteSpace s = true.
Proof.
  induction s as [|c r IH]; simpl; [reflexivity|].
  destruct (isWhiteSpace c); [exact IH | discriminate].
Qed.

Lemma trimStart_white s :
  forallb isWhiteSpace (trimStart s) = true -> forallb isWhiteSpace s = true.
Proof.
  induction s as [|c r IH]; simpl; [reflexivity|].
  destruct (isWhiteSpace c) eqn:E; simpl; [exact IH | now rewrite E].
Qed.

Lemma forallb_rev {A} (f : A -> bool) l :
  forallb f (rev l) = forallb f l.
Proof.
  induction l as [|x r IH]; simpl; [reflexivity|].
  rewrite forallb_app, IH. simpl. rewrite andb_true_r. apply andb_comm.
Qed.

(** A line that trims to nothing is made of white space only. *)
Lemma blank_white line : blank line -> forallb isWhiteSpace line = true.
Proof.
  unfold blank, trim. intros H.
  apply (f_equal (@rev codeunit)) in H. rewrite rev_involutive in H.
  simpl in H. apply trimStart_nil in H. rewrite forallb_rev in H.
  now apply trimStart_white.
Qed.

Lemma blank_not_data line :
  blank line -> startsWith line (js "data: ") = false.
Proof.
  intros H. apply blank_white in H. rewrite js_data.
  destruct line as [|c r]; [reflexivity|].
  simpl in H. apply andb_prop in H. destruct H as [H _].
  cbn [startsWith]. destruct (N.eqb_spec 100 c) as [<-|]; [discriminate H | reflexivity].
Qed.

Lemma LF_freeb_free line : LF_freeb line = true -> LF_free line.
Proof.
  unfold LF_freeb, LF_free. intros H F.
  apply negb_true_iff in H.
  assert (E : existsb (N.eqb LF) line = true).
  { apply existsb_exists. exists LF. split; [exact F | apply N.eqb_refl]. }
  congruence.
Qed.

Lemma split_LF_free l : LF_free l -> split_LF l = [l].
Proof.
  unfold LF_free. induction l as [|c r IH]; intros H; [reflexivity|].
  simpl. destruct (N.eqb_spec c LF) as [->|_].
  - exfalso. apply H. now left.
  - rewrite IH; [reflexivity|]. intros F. apply H. now right.
Qed.

Lemma split_LF_app l rest :
  LF_free l -> split_LF (l ++ LF :: rest) = l :: split_LF rest.
Proof.
  unfold LF_free. induction l as [|c r IH]; intros H; simpl.
  - reflexivity.
  - destruct (N.eqb_spec c LF) as [->|_].
    + exfalso. apply H. now left.
    + rewrite IH; [reflexivity|]. intros F. apply H. now right.
Qed.

(** Splitting undoes joining, for lines without line feeds. *)
Lemma split_join ls :
  ls <> [] -> Forall LF_free ls -> split_LF (join_LF ls) = ls.
Proof.
  induction ls as [|l r IH]; intros Hne Hfree; [congruence|].
  inversion Hfree as [|? ? Hl Hr]; subst.
  destruct r as [|l' r'].
  - simpl. now apply split_LF_free.
  - change (join_LF (l :: l' :: r')) with (l ++ LF :: join_LF (l' :: r')).
    rewrite split_LF_app by assumption.
    rewrite IH; [reflexivity | discriminate | assumption].
Qed.

(** ** The read loop of the line-framed transports *)

Section LineFramedFacts.
Context {num : JSNumber} {rt : Runtime}.
Variable extract : value -> completion value.
Variable onStream : callback.

Lemma converts_printed v :
  converts v = true -> ToString v = Normal (printed v).
Proof.
  unfold converts, printed. destruct (ToString v); [reflexivity|discriminate].
Qed.

(** Values whose conversion returns concatenate to their strings joined. *)
Lemma concatenation_printed ds :
  forallb converts ds = true ->
  concatenation ds = Normal (flat_map printed ds).
Proof.
  unfold concatenation.
  assert (G : forall acc,
             forallb converts ds = true ->
             fold_left (fun all d =>
                          a <- all ;; s <- ToString d ;; Normal (a ++ s))
                       ds (Normal acc)
             = Normal (acc ++ flat_map printed ds)).
  { induction ds as [|d r IH]; intros acc H; simpl.
    - now rewrite app_nil_r.
    - simpl in H. apply andb_prop in H. destruct H as [Hd Hr].
      rewrite (converts_printed _ Hd). simpl.
      rewrite IH by exact Hr. now rewrite <- app_assoc. }
  apply G.
Qed.

Lemma push_nil st : push st [] = st.
Proof. destruct st. unfold push. simpl. now rewrite !app_nil_r. Qed.

Lemma push_push st a b : push (push st a) b = push st (a ++ b).
Proof.
  unfold push. simpl. now rewrite flat_map_app, <- !app_assoc.
Qed.

(** A line acts on the progress through its own deltas only: the loop
    keeps nothing else from one line to the next. *)
Lemma on_line_push st line :
  on_line extract onStream st line = push st (line_deltas extract line).
Proof.
  unfold on_line, line_deltas.
  destruct (startsWith line (js "data: ") && negb (includes line (js "[DONE]")));
    [|now rewrite push_nil].
  destruct (JSON_parse (substring 6 line)) as [data|]; [|now rewrite push_nil].
  destruct (extract data) as [x|e]; [|now rewrite push_nil].
  unfold forward, converts, push, printed.
  destruct (ToString (or_else x (VStr []))) as [t|e] eqn:E; simpl.
  - now rewrite E, app_nil_r.
  - destruct st. simpl. now rewrite !app_nil_r.
Qed.

(** Every delta of a line was converted to a string before it was
    passed. *)
Lemma line_deltas_convert line :
  forallb converts (line_deltas extract line) = true.
Proof.
  unfold line_deltas.
  destruct (startsWith line (js "data: ") && negb (includes line (js "[DONE]")));
    [|reflexivity].
  destruct (JSON_parse (substring 6 line)) as [data|]; [|reflexivity].
  destruct (extract data) as [x|e]; [|reflexivity].
  destruct (converts (or_else x (VStr []))) eqn:E; [|reflexivity].
  simpl. now rewrite E.
Qed.

Lemma flat_map_convert {A} (f : A -> list value) l :
  (forall x, forallb converts (f x) = true) ->
  forallb converts (flat_map f l) = true.
Proof.
  intros H. induction l as [|x r IH]; simpl; [reflexivity|].
  now rewrite forallb_app, H, IH.
Qed.

Lemma chunk_deltas_convert piece :
  forallb converts (chunk_deltas extract piece) = true.
Proof. apply flat_map_convert, line_deltas_convert. Qed.

Lemma fold_on_line ls st :
  fold_left (on_line extract onStream) ls st
  = push st (flat_map (line_deltas extract) ls).
Proof.
  revert st. induction ls as [|l r IH]; intros st; simpl.
  - now rewrite push_nil.
  - now rewrite IH, on_line_push, push_push.
Qed.

Lemma blank_line_deltas line : blank line -> line_deltas extract line = [].
Proof.
  intros H. unfold line_deltas. now rewrite (blank_not_data H).
Qed.

(** The filter on blank lines changes nothing: a blank line is no data
    line. *)
Lemma lines_of_deltas chunk :
  flat_map (line_deltas extract) (lines_of chunk)
  = flat_map (line_deltas extract) (split_LF chunk).
Proof.
  unfold lines_of. induction (split_LF chunk) as [|l r IH]; [reflexivity|].
  simpl. destruct (jsstring_eqb (trim l) []) eqn:E; simpl.
  - apply jsstring_eqb_eq in E. rewrite (blank_line_deltas E). exact IH.
  - now rewrite IH.
Qed.

Lemma on_chunk_push st piece :
  on_chunk extract onStream st piece = push st (chunk_deltas extract piece).
Proof.
  unfold on_chunk, chunk_deltas. now rewrite fold_on_line, lines_of_deltas.
Qed.

Lemma fold_on_chunk values st :
  fold_left (on_chunk extract onStream) values st
  = push st (flat_map (chunk_deltas extract) values).
Proof.
  revert st. induction values as [|v r IH]; intros st; simpl.
  - now rewrite push_nil.
  - now rewrite IH, on_chunk_push, push_push.
Qed.

(** The loop as a whole: the calls are the deltas of the chunks in
    order, and the accumulated text is their concatenation. *)
Lemma read_lines_spec b :
  read_lines extract onStream b =
  match b with
  | None => (start, Normal tt)
  | Some stream =>
      (push start (flat_map (chunk_deltas extract) (chunks stream)),
       match failure stream with None => Normal tt | Some e => Throw e end)
  end.
Proof.
  destruct b as [stream|]; [|reflexivity].
  unfold read_lines. now rewrite fold_on_chunk.
Qed.

Lemma read_lines_lockstep b :
  concatenation (calls (fst (read_lines extract onStream b)))
  = Normal (fullResponse (fst (read_lines extract onStream b))).
Proof.
  rewrite read_lines_spec.
  destruct b as [stream|]; [|reflexivity].
  cbn [fst push calls fullResponse start app].
  apply concatenation_printed, flat_map_convert, chunk_deltas_convert.
Qed.

Lemma line_deltas_DONE line :
  includes line (js "[DONE]") = true -> line_deltas extract line = [].
Proof.
  intros H. unfold line_deltas. rewrite H. now rewrite andb_false_r.
Qed.




(** A chunk made of whole lines adds the deltas of these lines. *)
Lemma chunk_deltas_join piece ls :
  Forall LF_free ls -> decode piece = join_LF ls ->
  chunk_deltas extract piece = flat_map (line_deltas extract) ls.
Proof.
  intros Hfree Hdec. unfold chunk_deltas. rewrite Hdec.
  destruct ls as [|l r].
  - cbn [join_LF split_LF flat_map].
    rewrite blank_line_deltas; reflexivity.
  - rewrite split_join; [reflexivity | discriminate | assumption].
Qed.

End LineFramedFacts.

(** ** [chat] with a callback, on a successful response *)

Section StreamingFacts.
Context {num : JSNumber} {rt : Runtime}.

Lemma concatenation_snoc ds d :
  concatenation (ds ++ [d])
  = (a <- concatenation ds ;; s <- ToString d ;; Normal (a ++ s)).
Proof. unfold concatenation. now rewrite fold_left_app. Qed.

Lemma forward_lockstep f st x :
  concatenation (calls st) = Normal (fullResponse st) ->
  concatenation (calls (fst (forward f st x)))
  = Normal (fullResponse (fst (forward f st x))).
Proof.
  intros H. unfold forward.
  destruct (ToString x) as [s|e] eqn:E; [|exact H].
  cbn [fst calls fullResponse]. rewrite concatenation_snoc, H, E.
  reflexivity.
Qed.

(** The loop over the parsed array keeps the accumulated text equal to
    the concatenation of the calls made, also when it is left early. *)
Lemma for_of_lockstep f items st :
  concatenation (calls st) = Normal (fullResponse st) ->
  concatenation (calls (fst (GoogleService.for_of f items st)))
  = Normal (fullResponse (fst (GoogleService.for_of f items st))).
Proof.
  revert st. induction items as [|data rest IH]; intros st H.
  - exact H.
  - cbn [GoogleService.for_of].
    destruct (GoogleService.has_text data) as [test|e]; [|exact H].
    destruct (truthy test); [|now apply IH].
    destruct (GoogleService.part_text data) as [x|e]; [|exact H].
    pose proof (@forward_lockstep f st x H) as H'.
    destruct (forward f st x) as [st' thrown]. cbn [fst] in H'.
    destruct thrown as [e|]; [exact H' | now apply IH].
Qed.

Lemma parse_buffer_lockstep f text :
  concatenation (calls (fst (GoogleService.parse_buffer f text)))
  = Normal (fullResponse (fst (GoogleService.parse_buffer f text))).
Proof.
  unfold GoogleService.parse_buffer.
  destruct (JSON_parse text) as [v|]; [|reflexivity].
  destruct v; try reflexivity. now apply for_of_lockstep.
Qed.

(** What a line-framed [chat] does with a successful response. *)
Lemma line_framed_deltas service messages options f response :
  line_framed service -> ok response = true ->
  deltas (chat service messages options (Some f) (Resolved response))
  = match body response with
    | None => []
    | Some stream =>
        flat_map (chunk_deltas (extract_of service)) (chunks stream)
    end.
Proof.
  intros Hs Hok.
  destruct service as [self|self|self]; [| |destruct Hs]; simpl;
    [unfold OpenAIService.chat | unfold AnthropicService.chat];
    rewrite Hok; simpl; rewrite read_lines_spec;
    destruct (body response); reflexivity.
Qed.

Lemma line_framed_outcome service messages options f response :
  line_framed service -> ok response = true ->
  outcome (chat service messages options (Some f) (Resolved response))
  = match body response with
    | None => Normal (VStr [])
    | Some stream =>
        match failure stream with
        | None =>
            Normal (VStr (flat_map printed
              (flat_map (chunk_deltas (extract_of service)) (chunks stream))))
        | Some e => Throw e
        end
    end.
Proof.
  intros Hs Hok.
  destruct service as [self|self|self]; [| |destruct Hs]; simpl;
    [unfold OpenAIService.chat | unfold AnthropicService.chat];
    rewrite Hok; simpl; rewrite read_lines_spec;
    (destruct (body response) as [stream|]; [|reflexivity]);
    simpl; destruct (failure stream); reflexivity.
Qed.

(** The deltas of a line-framed [chat] concatenate to the text it
    accumulated. *)
Lemma line_framed_concatenation service values :
  concatenation (flat_map (chunk_deltas (extract_of service)) values)
  = Normal (flat_map printed
              (flat_map (chunk_deltas (extract_of service)) values)).
Proof.
  apply concatenation_printed, flat_map_convert, chunk_deltas_convert.
Qed.

End StreamingFacts.

(** C1. For each of the three transports: when [chat] is called with a
    callback and the response is successful, the string the call resolves
    to is the concatenation, in the order of the calls, of the arguments
    the callback received during the call. *)
Theorem chat_resolves_to_concatenation
  {num : JSNumber} {rt : Runtime}
  (service : AIService) (messages : list ChatMessage) (options : value)
  (onStream : callback) (response : Response) (result : value) :
  ok response = true ->
  outcome (chat service messages options (Some onStream) (Resolved response))
    = Normal result ->
  exists text,
    concatenation
      (deltas (chat service messages options (Some onStream)
                    (Resolved response))) = Normal text /\
    result = VStr text.
Proof.
  intros Hok Hres.
  destruct service as [self|self|self].
  - rewrite line_framed_deltas by (simpl; auto).
    rewrite line_framed_outcome in Hres by (simpl; auto).
    destruct (body response) as [stream|].
    + destruct (failure stream); [discriminate|].
      injection Hres as <-. eexists. split; [|reflexivity].
      exact (line_framed_concatenation (OpenAI self) _).
    + injection Hres as <-. exists []. split; reflexivity.
  - rewrite line_framed_deltas by (simpl; auto).
    rewrite line_framed_outcome in Hres by (simpl; auto).
    destruct (body response) as [stream|].
    + destruct (failure stream); [discriminate|].
      injection Hres as <-. eexists. split; [|reflexivity].
      exact (line_framed_concatenation (Anthropic self) _).
    + injection Hres as <-. exists []. split; reflexivity.
  - simpl in *. unfold GoogleService.chat in *. rewrite Hok in *. simpl in *.
    unfold GoogleService.read_buffer in *.
    destruct (GoogleService.read_all (body response)) as [buffer|e];
      [|discriminate].
    pose proof (parse_buffer_lockstep onStream (trim buffer)) as L.
    destruct (GoogleService.parse_buffer onStream (trim buffer))
      as [st tried].
    simpl in L. destruct tried; simpl in *; [|discriminate].
    injection Hres as <-. exists (fullResponse st). split; [exact L|reflexivity].
Qed.

(** The third example of the properties the repository lists for Google:
    two elements yield "Hel" and "lo", and the call resolves to "Hello". *)
Lemma chat_resolves_to_concatenation_witness :
  let run :=
    chat (rt := Mini.engine)
      (Google (GoogleService.new (js "key") None)) [] VUndefined
      (Some Mini.listener)
      (Mini.streamed
         [Mini.wire "[{'candidates':[{'content':{'parts':[{'text':'Hel'}]}}]},";
          Mini.wire "{'candidates':[{'content':{'parts':[{'text':'lo'}]}}]}]"]) in
  deltas run = [Mini.str "Hel"; Mini.str "lo"] /\
  outcome run = Normal (Mini.str "Hello") /\
  exists text,
    concatenation (deltas run) = Normal text /\ Mini.str "Hello" = VStr text.
Proof.
  intros run.
  refine (conj _ (conj _ _)); [reflexivity ..|].
  apply (chat_resolves_to_concatenation (rt := Mini.engine)
           (Google (GoogleService.new (js "key") None)) [] VUndefined
           Mini.listener
           (Mini.delivered_ok
              [Mini.wire "[{'candidates':[{'content':{'parts':[{'text':'Hel'}]}}]},";
               Mini.wire "{'candidates':[{'content':{'parts':[{'text':'lo'}]}}]}]"]));
    reflexivity.
Defined.

(** ** Streams whose chunks end at line ends *)

Section AlignedFacts.
Context {num : JSNumber} {rt : Runtime}.
Variable extract : value -> completion value.


Lemma aligned_deltas values groups :
  aligned values groups ->
  flat_map (chunk_deltas extract) values
  = flat_map (line_deltas extract) (concat groups).
Proof.
  intros [Hdec Hfree]. revert values Hdec.
  induction Hfree as [|g groups Hg _ IH]; intros values Hdec.
  - destruct values; [reflexivity | discriminate].
  - destruct values as [|v values]; [discriminate|].
    simpl in Hdec. injection Hdec as Hv Hrest.
    simpl. rewrite flat_map_app.
    rewrite (chunk_deltas_join extract v Hg Hv).
    now rewrite IH.
Qed.

End AlignedFacts.




(** A data line whose text is an object with a [toString] property of its
    own: [fullResponse += content] throws, the [catch] of the line drops
    it before the callback is reached, and the reading goes on. *)
Lemma unconvertible_text_is_dropped :
  let run :=
    chat (rt := Mini.engine)
      (OpenAI (OpenAIService.new (js "key") None None)) [] VUndefined
      (Some Mini.listener)
      (Mini.streamed
         [(Mini.line "data: {'choices':[{'delta':{'content':{'toString':1}}}]}" ++
            Mini.line "data: {'choices':[{'delta':{'content':'Hi'}}]}")]) in
  deltas run = [Mini.str "Hi"] /\
  outcome run = Normal (Mini.str "Hi").
Proof. intros run. split; reflexivity. Qed.

(** ** Empty text *)

Section EmptyText.
Context {num : JSNumber} {rt : Runtime}.

(** A nullish link makes the rest of an optional chain [undefined]. *)
Lemma optProp_nullish v name :
  isNullish v = true -> optProp v name = VUndefined.
Proof. unfold optProp. now intros ->. Qed.

Lemma optIndex_nullish v i :
  isNullish v = true -> optIndex v i = VUndefined.
Proof. unfold optIndex. now intros ->. Qed.

(** When the test of the [if] in the loop of [GoogleService.chat] is
    truthy, the assignment that follows reads the same value and does not
    throw. *)
Lemma part_text_tested data test :
  GoogleService.has_text data = Normal test -> truthy test = true ->
  GoogleService.part_text data = Normal test.
Proof.
  unfold GoogleService.has_text, GoogleService.part_text.
  destruct (getProp data (js "candidates")) as [candidates|e]; simpl;
    [|discriminate].
  destruct (truthy candidates) eqn:Hc;
    [|intros H Ht; injection H as <-; congruence].
  destruct (getIndex candidates 0) as [first|e]; simpl; [|discriminate].
  intros H Ht. injection H as <-.
  set (c := optProp first (js "content")) in *.
  set (ps := optProp c (js "parts")) in *.
  set (p := optIndex ps 0) in *.
  assert (Np : isNullish p = false).
  { destruct (isNullish p) eqn:E; [|reflexivity].
    rewrite optProp_nullish in Ht by exact E. discriminate. }
  assert (Nps : isNullish ps = false).
  { destruct (isNullish ps) eqn:E; [|reflexivity].
    unfold p in Np. rewrite optIndex_nullish in Np by exact E. discriminate. }
  assert (Nc : isNullish c = false).
  { destruct (isNullish c) eqn:E; [|reflexivity].
    unfold ps in Nps. rewrite optProp_nullish in Nps by exact E. discriminate. }
  assert (Nf : isNullish first = false).
  { destruct (isNullish first) eqn:E; [|reflexivity].
    unfold c in Nc. rewrite optProp_nullish in Nc by exact E. discriminate. }
  unfold getProp at 1. rewrite Nf. simpl.
  assert (Ec : prop first (js "content") = c)
    by (unfold c, optProp; now rewrite Nf).
  rewrite Ec. unfold getProp at 1. rewrite Nc. simpl.
  assert (Eps : prop c (js "parts") = ps)
    by (unfold ps, optProp; now rewrite Nc).
  rewrite Eps. unfold getIndex. rewrite Nps. simpl.
  assert (Ep : item ps 0 = p) by (unfold p, optIndex; now rewrite Nps).
  rewrite Ep. unfold getProp, optProp. now rewrite Np.
Qed.



End EmptyText.




(** ** Chunk boundaries *)

Lemma utf8_run_app st a b :
  utf8_run st (a ++ b)
  = let (st1, out1) := utf8_run st a in
    let (st2, out2) := utf8_run st1 b in
    (st2, out1 ++ out2).
Proof.
  revert st. induction a as [|x r IH]; intros st; simpl.
  - now destruct (utf8_run st b).
  - destruct (utf8_step st (Byte.to_N x)) as [st1 out1].
    rewrite IH. destruct (utf8_run st1 r) as [st2 out2].
    destruct (utf8_run st2 b) as [st3 out3]. now rewrite app_assoc.
Qed.

Lemma serialize_app seen a b :
  serialize seen (a ++ b)
  = let (seen1, out1) := serialize seen a in
    let (seen2, out2) := serialize seen1 b in
    (seen2, out1 ++ out2).
Proof.
  destruct a as [|c r]; simpl.
  - now destruct (serialize seen b).
  - destruct b as [|c' r']; simpl.
    + now rewrite !app_nil_r.
    + unfold utf16. destruct (negb seen && (c =? BOM)%N).
      * now rewrite flat_map_app.
      * change (c :: r ++ c' :: r') with ((c :: r) ++ c' :: r').
        now rewrite flat_map_app.
Qed.

(** The streaming decoder gives the same text whether two pieces arrive
    in one call or in two. *)
Lemma decode_stream_app d a b :
  decode_stream d (a ++ b)
  = let (d1, out1) := decode_stream d a in
    let (d2, out2) := decode_stream d1 b in
    (d2, out1 ++ out2).
Proof.
  unfold decode_stream. rewrite utf8_run_app.
  destruct (utf8_run (decoder d) a) as [st1 cps1].
  destruct (serialize (BOM_seen d) cps1) as [seen1 out1] eqn:E1. simpl.
  destruct (utf8_run st1 b) as [st2 cps2].
  rewrite serialize_app, E1.
  now destruct (serialize seen1 cps2).
Qed.

Lemma buffered_step d buffer values :
  GoogleService.buffered d buffer values
  = buffer ++ snd (decode_stream d (concat values)).
Proof.
  revert d buffer. induction values as [|v r IH]; intros d buffer; simpl.
  - unfold decode_stream. simpl. now rewrite app_nil_r.
  - rewrite decode_stream_app.
    destruct (decode_stream d v) as [d1 out1].
    rewrite IH. destruct (decode_stream d1 (concat r)) as [d2 out2].
    simpl. now rewrite app_assoc.
Qed.

(** The buffer of [GoogleService.chat] does not depend on where the
    response is cut into chunks. *)
Lemma buffered_chunking values values' :
  concat values = concat values' ->
  GoogleService.buffered new_TextDecoder [] values
  = GoogleService.buffered new_TextDecoder [] values'.
Proof. intros H. now rewrite !buffered_step, H. Qed.

(** C4. The code does not do what the claim says: in the read loops of
    OpenAI and Anthropic the decoder is called without [stream: true] and
    the tail of a chunk is not kept, so a response cut inside a data line,
    or inside a two-byte character, loses the delta that the same bytes
    give when they arrive in one chunk. *)
Theorem chunk_boundary_loses_delta :
  let openai := OpenAI (OpenAIService.new (js "key") None None) in
  let anthropic := Anthropic (AnthropicService.new (js "key") None) in
  let head := Mini.wire "data: {'choices':[{'delta':{'content':'H" in
  let tail := Mini.line "i'}}]}" in
  let open := Mini.wire "data: {'content':[{'text':'" in
  let close := Mini.line "'}]}" in
  deltas (chat openai [] VUndefined (Some Mini.listener)
            (Mini.streamed [head ++ tail])) = [Mini.str "Hi"] /\
  deltas (chat openai [] VUndefined (Some Mini.listener)
            (Mini.streamed [head; tail])) = [] /\
  deltas (chat anthropic [] VUndefined (Some Mini.listener)
            (Mini.streamed [open ++ [xc3; xa9] ++ close])) = [VStr [233%N]] /\
  deltas (chat anthropic [] VUndefined (Some Mini.listener)
            (Mini.streamed [open ++ [xc3]; [xa9] ++ close])) = [] /\
  decode [xc3; xa9] = [233%N] /\
  decode [xc3] ++ decode [xa9] = [REPLACEMENT; REPLACEMENT].
Proof. repeat split; reflexivity. Qed.

(** ** A malformed line *)



(** ** A buffer that is not a JSON array *)



(** ** The factory *)

(** C7. [createService] compares the lower-case form of the identifier
    with [openai], [anthropic] and [google]: on a match it returns the
    transport of that class, built from the other arguments only, so two
    identifiers that differ in letter case alone give equal transports;
    on any other identifier it throws an error whose message ends with the
    identifier as it was given. The function returns a value or throws; it
    issues no request. The law on [toLowerCase] is the one of the
    language for strings of ASCII code units. *)
Theorem createService_ignores_case
  {num : JSNumber} {rt : Runtime}
  (type other apiKey : jsstring) (modelName baseUrl : option jsstring) :
  (forall s, forallb isASCII s = true -> toLowerCase s = map lower s) ->
  let created :=
    AIServiceFactory.createService type apiKey modelName baseUrl in
  (toLowerCase type = js "openai" ->
   created = Normal (OpenAI (OpenAIService.new apiKey modelName baseUrl))) /\
  (toLowerCase type = js "anthropic" ->
   created = Normal (Anthropic (AnthropicService.new apiKey modelName))) /\
  (toLowerCase type = js "google" ->
   created = Normal (Google (GoogleService.new apiKey modelName))) /\
  (~ In (toLowerCase type) provider_ids ->
   created = Throw (Error (js "Unsupported AI service type: " ++ type))) /\
  (forallb isASCII type = true -> forallb isASCII other = true ->
   map lower type = map lower other ->
   In (map lower type) provider_ids ->
   AIServiceFactory.createService other apiKey modelName baseUrl = created /\
   exists service, created = Normal service).
Proof.
  intros law created. subst created.
  unfold AIServiceFactory.createService.
  split; [|split; [|split; [|split]]].
  - intros ->. reflexivity.
  - intros ->. reflexivity.
  - intros ->. reflexivity.
  - intros Hout. unfold provider_ids in Hout. simpl in Hout.
    rewrite !jsstring_eqb_neq; [reflexivity | | |];
      intros E; apply Hout; rewrite E; auto.
  - intros Ha Hb Heq Hin.
    rewrite (law type Ha), (law other Hb), <- Heq.
    unfold provider_ids in Hin. simpl in Hin.
    destruct Hin as [E|[E|[E|[]]]]; rewrite <- E;
      (split; [reflexivity | eexists; reflexivity]).
Qed.

Lemma createService_ignores_case_witness :
  let created :=
    AIServiceFactory.createService (js "OPENAI") (js "key") None None in
  AIServiceFactory.createService (js "openai") (js "key") None None = created /\
  exists service, created = Normal service.
Proof.
  intros created.
  apply (createService_ignores_case (rt := Mini.engine)
           (js "OPENAI") (js "openai") (js "key") None None).
  - intros s _. reflexivity.
  - reflexivity.
  - reflexivity.
  - reflexivity.
  - left. reflexivity.
Defined.

(** ** A response that is not successful *)

Section Rejections.
Context {num : JSNumber} {rt : Runtime}.

(** Only an object has one of the properties the program reads. *)
Lemma prop_truthy v name : truthy (prop v name) = true -> truthy v = true.
Proof. destruct v; simpl; try discriminate; reflexivity. Qed.

Lemma optProp_truthy_source v name :
  truthy (optProp v name) = true -> truthy v = true /\ isNullish v = false.
Proof.
  unfold optProp. destruct (isNullish v) eqn:E; [discriminate|].
  intros H. split; [now apply prop_truthy in H | reflexivity].
Qed.

Lemma getProp_nullish v name :
  isNullish v = true -> getProp v name = Throw TypeError.
Proof. unfold getProp. now intros ->. Qed.

Lemma getProp_present v name :
  isNullish v = false -> getProp v name = Normal (prop v name).
Proof. unfold getProp. now intros ->. Qed.

Lemma getIndex_nullish v i :
  isNullish v = true -> getIndex v i = Throw TypeError.
Proof. unfold getIndex. now intros ->. Qed.

Lemma truthy_not_nullish v : truthy v = true -> isNullish v = false.
Proof. destruct v; simpl; try discriminate; reflexivity. Qed.

Lemma optProp_falsy v name :
  truthy v = false -> optProp v name = VUndefined.
Proof.
  unfold optProp. destruct v; simpl; try reflexivity. discriminate.
Qed.

End Rejections.

(** C8, as the code has it. For each transport, with or without a
    callback, a response whose status is not successful makes [chat] fail
    without calling the callback. When the body does not decode as JSON,
    the exception of [response.json()] is what the call fails with: there
    is no fall-back to the status text on that path. When the body is the
    JSON [null], reading its [error] throws a [TypeError]. For any other
    JSON body, the message of the error is the prefix of the transport
    followed by the [error.message] of the payload when that is truthy,
    and by the status text when the payload has no truthy [error]; a
    truthy [error] without a truthy [message] gives the status text for
    Anthropic and Google and [error.code] for OpenAI. The value shown is
    converted by the template literal, and where that conversion throws
    (an object with a [toString] property of its own) the call fails with
    its [TypeError] instead. *)
Theorem rejection_message
  {num : JSNumber} {rt : Runtime}
  (service : AIService) (messages : list ChatMessage) (options : value)
  (onStream : option callback) (response : Response) :
  ok response = false ->
  let run := chat service messages options onStream (Resolved response) in
  deltas run = [] /\
  match json response with
  | Throw e => outcome run = Throw e
  | Normal errorData =>
      if isNullish errorData then outcome run = Throw TypeError
      else
        let error := prop errorData (js "error") in
        let message := optProp error (js "message") in
        (truthy message = true ->
         outcome run
         = (text <- ToString message ;;
            Throw (Error (error_prefix service ++ text)))) /\
        (truthy error = false ->
         outcome run
         = Throw (Error (error_prefix service ++ statusText response))) /\
        (truthy error = true -> truthy message = false ->
         outcome run
         = match service with
           | OpenAI _ =>
               text <- ToString (prop error (js "code")) ;;
               Throw (Error (error_prefix service ++ text))
           | _ => Throw (Error (error_prefix service ++ statusText response))
           end)
  end.
Proof.
  intros Hok run. subst run.
  destruct service as [self|self|self]; cbn [chat error_prefix];
    [unfold OpenAIService.chat, OpenAIService.reject
    |unfold AnthropicService.chat, AnthropicService.reject
    |unfold GoogleService.chat, GoogleService.reject];
    rewrite Hok; cbn [negb settle deltas outcome]; (split; [reflexivity|]);
    unfold bind;
    (destruct (json response) as [errorData|e]; [|reflexivity]);
    (destruct (isNullish errorData) eqn:Nd;
     [now rewrite getProp_nullish by exact Nd
     |rewrite getProp_present by exact Nd]);
    cbv zeta; set (error := prop errorData (js "error"));
    (split; [|split]).
  - intros Hm. destruct (optProp_truthy_source _ _ Hm) as [Te Ne].
    rewrite Te. rewrite getProp_present by exact Ne.
    unfold optProp in Hm |- *. rewrite Ne in Hm |- *. now rewrite Hm.
  - intros Te. now rewrite Te.
  - intros Te Hm. rewrite Te.
    rewrite !getProp_present by exact (truthy_not_nullish _ Te).
    unfold optProp in Hm. rewrite (truthy_not_nullish _ Te) in Hm.
    now rewrite Hm.
  - intros Hm. unfold or_else. now rewrite Hm.
  - intros Te. rewrite optProp_falsy by exact Te. reflexivity.
  - intros Te Hm. unfold or_else. now rewrite Hm.
  - intros Hm. unfold or_else. now rewrite Hm.
  - intros Te. rewrite optProp_falsy by exact Te. reflexivity.
  - intros Te Hm. unfold or_else. now rewrite Hm.
Qed.

Lemma rejection_message_witness :
  let run :=
    chat (Anthropic (AnthropicService.new (js "key") None)) [] VUndefined None
      (Resolved (Mini.failed 401 "Unauthorized"
         (Mini.wire "{'type':'error','error':{'message':'invalid x-api-key'}}")))
  in
  deltas run = [] /\
  outcome run = Throw (Error (js "Anthropic API错误: invalid x-api-key")).
Proof.
  intros run.
  pose proof (rejection_message
    (Anthropic (AnthropicService.new (js "key") None)) [] VUndefined None
    (Mini.failed 401 "Unauthorized"
       (Mini.wire "{'type':'error','error':{'message':'invalid x-api-key'}}"))
    eq_refl) as [Hd Ho].
  split; [exact Hd|]. hnf in Ho. destruct Ho as [Ho _].
  exact (Ho eq_refl).
Defined.

(** C8 as written fails: with a body that is not JSON (the page of a
    gateway, say) none of the three transports falls back to the status
    text; each fails with the exception of [response.json()]. *)
Lemma undecodable_error_body_hides_status_text :
  let reply :=
    Resolved (Mini.failed 502 "Bad Gateway"
                (Mini.wire "<html>502 Bad Gateway</html>")) in
  let openai := OpenAI (OpenAIService.new (js "key") None None) in
  let anthropic := Anthropic (AnthropicService.new (js "key") None) in
  let google := Google (GoogleService.new (js "key") None) in
  (outcome (chat openai [] VUndefined None reply) = Throw SyntaxError /\
   outcome (chat openai [] VUndefined None reply)
   <> Throw (Error (error_prefix openai ++ js "Bad Gateway"))) /\
  (outcome (chat anthropic [] VUndefined None reply) = Throw SyntaxError /\
   outcome (chat anthropic [] VUndefined None reply)
   <> Throw (Error (error_prefix anthropic ++ js "Bad Gateway"))) /\
  (outcome (chat google [] VUndefined None reply) = Throw SyntaxError /\
   outcome (chat google [] VUndefined None reply)
   <> Throw (Error (error_prefix google ++ js "Bad Gateway"))).
Proof.
  intros reply openai anthropic google.
  assert (E1 : outcome (chat openai [] VUndefined None reply)
               = Throw SyntaxError) by reflexivity.
  assert (E2 : outcome (chat anthropic [] VUndefined None reply)
               = Throw SyntaxError) by reflexivity.
  assert (E3 : outcome (chat google [] VUndefined None reply)
               = Throw SyntaxError) by reflexivity.
  rewrite E1, E2, E3. repeat split; discriminate.
Qed.

(** Two more bodies on which no message is built: the JSON [null], whose
    [error] cannot be read, and a message that the template literal cannot
    convert. *)
Lemma error_body_without_message :
  let null :=
    Resolved (Mini.failed 500 "Internal Server Error" (Mini.wire "null")) in
  let odd :=
    Resolved (Mini.failed 400 "Bad Request"
                (Mini.wire "{'error':{'message':{'toString':1}}}")) in
  let openai := OpenAI (OpenAIService.new (js "key") None None) in
  let anthropic := Anthropic (AnthropicService.new (js "key") None) in
  let google := Google (GoogleService.new (js "key") None) in
  outcome (chat openai [] VUndefined None null) = Throw TypeError /\
  outcome (chat anthropic [] VUndefined None null) = Throw TypeError /\
  outcome (chat google [] VUndefined None null) = Throw TypeError /\
  outcome (chat openai [] VUndefined None odd) = Throw TypeError /\
  outcome (chat anthropic [] VUndefined None odd) = Throw TypeError /\
  outcome (chat google [] VUndefined None odd) = Throw TypeError.
Proof. intros null odd openai anthropic google. repeat split; reflexivity. Qed.

(** ** The key check *)

(** C9. For each transport, [validateKey] never throws: whatever the
    request meets, it resolves to a boolean, and that boolean is [true]
    exactly when a response arrived and its status is in 200..299. *)
Theorem validateKey_never_throws
  {num : JSNumber} {rt : Runtime} (service : AIService) (net : fetched) :
  exists valid,
    outcome (validateKey service net) = Normal valid /\
    (valid = true <->
     exists response,
       net = Resolved response /\
       (200 <= status response <= 299)%Z).
Proof.
  destruct service as [self|self|self]; simpl;
    [unfold OpenAIService.validateKey
    |unfold AnthropicService.validateKey
    |unfold GoogleService.validateKey];
    (destruct net as [e|response]; simpl;
     [exists false; split; [reflexivity|];
      split; [discriminate | intros (r & H & _); discriminate]
     |exists (ok response); split; [reflexivity|];
      unfold ok; rewrite andb_true_iff, !Z.leb_le; split;
      [intros H; exists response; split; [reflexivity | exact H]
      |intros (r & H & Hr); injection H as ->; exact Hr]]).
Qed.

(** ** The request body *)

Section Spreading.
Context {num : JSNumber}.

Lemma lookup_define_same k v (props : list (jsstring * value)) :
  lookup k (define k v props) = Some v.
Proof.
  induction props as [|[k' v'] r IH]; simpl.
  - now rewrite jsstring_eqb_refl.
  - destruct (jsstring_eqb k k') eqn:E; simpl; rewrite E; [reflexivity|exact IH].
Qed.

Lemma lookup_define_other k k' v (props : list (jsstring * value)) :
  k <> k' -> lookup k (define k' v props) = lookup k props.
Proof.
  intros Hne. induction props as [|[k2 v2] r IH]; simpl.
  - now rewrite (jsstring_eqb_neq Hne).
  - destruct (jsstring_eqb k' k2) eqn:E; simpl.
    + apply jsstring_eqb_eq in E. subst k2.
      now rewrite (jsstring_eqb_neq Hne).
    + destruct (jsstring_eqb k k2); [reflexivity | exact IH].
Qed.

Lemma lookup_absent k (props : list (jsstring * value)) :
  ~ In k (map fst props) -> lookup k props = None.
Proof.
  induction props as [|[k' v'] r IH]; simpl; intros H; [reflexivity|].
  destruct (jsstring_eqb k k') eqn:E.
  - apply jsstring_eqb_eq in E. subst. exfalso. apply H. now left.
  - apply IH. intros F. apply H. now right.
Qed.

(** Copying properties one after another over [base]: a name that the
    source lacks keeps the value of [base]. *)
Lemma lookup_copied_absent k (source base : list (jsstring * value)) :
  lookup k source = None ->
  lookup k (fold_left (fun acc kv => define (fst kv) (snd kv) acc) source base)
  = lookup k base.
Proof.
  revert base. induction source as [|[k' v'] r IH]; intros base H; simpl.
  - reflexivity.
  - simpl in H. destruct (jsstring_eqb k k') eqn:E; [discriminate|].
    rewrite IH by exact H. apply lookup_define_other.
    intros ->. now rewrite jsstring_eqb_refl in E.
Qed.

(** A name of the source takes the value of the source. *)
Lemma lookup_copied k v (source base : list (jsstring * value)) :
  NoDup (map fst source) ->
  lookup k source = Some v ->
  lookup k (fold_left (fun acc kv => define (fst kv) (snd kv) acc) source base)
  = Some v.
Proof.
  revert base. induction source as [|[k' v'] r IH]; intros base Hnd H; simpl.
  - discriminate.
  - simpl in H, Hnd. inversion Hnd as [|? ? Hfresh Hrest]; subst.
    destruct (jsstring_eqb k k') eqn:E.
    + apply jsstring_eqb_eq in E. subst k'. injection H as ->.
      rewrite lookup_copied_absent by now apply lookup_absent.
      apply lookup_define_same.
    + now apply IH.
Qed.

End Spreading.

(** C10. For OpenAI and Anthropic the body of the request is the JSON
    text of an object that starts with the fields of the transport and
    then takes every property of [options]: a name that [options] has
    carries the value of [options], also when the name is [model],
    [messages] or [stream]; only a name that [options] lacks keeps the
    value the transport computed. So with a callback and [stream: false]
    in [options], the body says [stream: false]. *)
Theorem options_override_request_fields
  {num : JSNumber} {rt : Runtime}
  (service : AIService) (self : fields) (messages : list ChatMessage)
  (options : value) (onStream : option callback) (net : fetched) :
  service = OpenAI self \/ service = Anthropic self ->
  NoDup (map fst (ownProps options)) ->
  exists object,
    Request.body (sent (chat service messages options onStream net))
    = Some (JSON_stringify (VObj object)) /\
    (forall k v, lookup k (ownProps options) = Some v ->
                 lookup k object = Some v) /\
    (lookup (js "model") (ownProps options) = None ->
     lookup (js "model") object = Some (VStr (modelName self))) /\
    (lookup (js "messages") (ownProps options) = None ->
     lookup (js "messages") object
     = Some (VArr (map message_value messages))) /\
    (lookup (js "stream") (ownProps options) = None ->
     lookup (js "stream") object = Some (VBool (isSome onStream))).
Proof.
  intros Hs Hnd.
  destruct Hs as [-> | ->]; cbn [chat].
  - eexists. split.
    + unfold OpenAIService.chat.
      destruct net as [e|response];
        [|destruct (negb (ok response));
          [|destruct onStream as [f|];
            [destruct (read_lines OpenAIService.delta_content f
                         (body response))|]]];
        reflexivity.
    + unfold spread. split; [|split; [|split]].
      * intros k v H. now apply lookup_copied.
      * intros H. rewrite lookup_copied_absent by exact H. reflexivity.
      * intros H. rewrite lookup_copied_absent by exact H. reflexivity.
      * intros H. rewrite lookup_copied_absent by exact H. reflexivity.
  - eexists. split.
    + unfold AnthropicService.chat.
      destruct net as [e|response];
        [|destruct (negb (ok response));
          [|destruct onStream as [f|];
            [destruct (read_lines AnthropicService.event_text f
                         (body response))|]]];
        reflexivity.
    + unfold spread. split; [|split; [|split]].
      * intros k v H. now apply lookup_copied.
      * intros H. rewrite lookup_copied_absent by exact H. reflexivity.
      * intros H. rewrite lookup_copied_absent by exact H. reflexivity.
      * intros H. rewrite lookup_copied_absent by exact H. reflexivity.
Qed.

(** [stream: false] in the options of a streaming call, on the wire. *)
Lemma options_override_request_fields_witness :
  let options := VObj [(js "stream", VBool false)] in
  let run :=
    chat (OpenAI (OpenAIService.new (js "key") None None)) [] options
      (Some Mini.listener) (Mini.streamed []) in
  Request.body (sent run)
  = Some (Mini.text "{'model':'gpt-3.5-turbo','messages':[],'stream':false}") /\
  exists object,
    Request.body (sent run) = Some (JSON_stringify (VObj object)) /\
    lookup (js "stream") object = Some (VBool false).
Proof.
  intros options run. split; [reflexivity|].
  destruct (options_override_request_fields
              (service := OpenAI (OpenAIService.new (js "key") None None))
              (self := OpenAIService.new (js "key") None None)
              [] options (Some Mini.listener) (Mini.streamed [])
              (or_introl eq_refl))
    as (object & Hbody & Hover & _).
  - repeat constructor. intros [].
  - exists object. split; [exact Hbody|]. apply Hover. reflexivity.
Defined.

(** * Further properties of the transports *)

(** ** Chunking and the buffered transport *)

(** X1. [GoogleService.chat] does not depend on how the bytes of the body
    are cut into chunks: with or without a callback, whatever the status,
    two deliveries of the same bytes give the same request, the same
    calls of the callback and the same settlement. *)
Theorem Google_chat_ignores_chunking
  {num : JSNumber} {rt : Runtime}
  (self : fields) (messages : list ChatMessage) (options : value)
  (onStream : option callback) (code : Z) (reason : jsstring)
  (values values' : list (list byte)) :
  concat values = concat values' ->
  chat (Google self) messages options onStream
       (Resolved (delivered code reason values))
  = chat (Google self) messages options onStream
         (Resolved (delivered code reason values')).
Proof.
  intros H. cbn [chat]. unfold GoogleService.chat.
  assert (J : json (delivered code reason values)
              = json (delivered code reason values')).
  { unfold json, delivered. cbn [body failure chunks]. now rewrite H. }
  assert (K : ok (delivered code reason values)
              = ok (delivered code reason values')) by reflexivity.
  rewrite K. destruct (negb (ok (delivered code reason values'))).
  - unfold GoogleService.reject. now rewrite J.
  - destruct onStream as [f|]; [|now rewrite J].
    unfold GoogleService.read_buffer, GoogleService.read_all, delivered.
    cbn [body failure chunks].
    now rewrite (buffered_chunking values values' H).
Qed.

Lemma Google_chat_ignores_chunking_witness :
  let whole :=
    Mini.wire "[{'candidates':[{'content':{'parts':[{'text':'caf" ++
    [xc3; xa9] ++ Mini.wire "'}]}}]}]" in
  let cut :=
    [Mini.wire "[{'candidates':[{'content':{'parts':[{'text':'caf" ++ [xc3];
     [xa9] ++ Mini.wire "'}]}}]}]"] in
  chat (Google (GoogleService.new (js "key") None)) [] VUndefined
       (Some Mini.listener) (Resolved (delivered 200 (js "OK") [whole]))
  = chat (Google (GoogleService.new (js "key") None)) [] VUndefined
         (Some Mini.listener) (Resolved (delivered 200 (js "OK") cut)) /\
  deltas (chat (Google (GoogleService.new (js "key") None)) [] VUndefined
            (Some Mini.listener) (Resolved (delivered 200 (js "OK") cut)))
  = [VStr (js "caf" ++ [233%N])].
Proof.
  intros whole cut. split; [|reflexivity].
  apply Google_chat_ignores_chunking. reflexivity.
Defined.

(** ** Exceptions of the callback *)

(** X2. For OpenAI and Anthropic an exception thrown by the callback is
    caught by the [try] around the line and has no effect on the call: with
    any two callbacks the request, the arguments passed and the settlement
    are the same. *)
Theorem line_framed_ignores_callback_exceptions
  {num : JSNumber} {rt : Runtime}
  (service : AIService) (messages : list ChatMessage) (options : value)
  (f g : callback) (net : fetched) :
  line_framed service ->
  chat service messages options (Some f) net
  = chat service messages options (Some g) net.
Proof.
  intros Hs.
  destruct service as [self|self|self]; [| |destruct Hs]; cbn [chat];
    [unfold OpenAIService.chat | unfold AnthropicService.chat];
    (destruct net as [e|response]; [reflexivity|]);
    (destruct (negb (ok response)); [reflexivity|]);
    rewrite !read_lines_spec; destruct (body response); reflexivity.
Qed.

Lemma line_framed_ignores_callback_exceptions_witness :
  let stream :=
    Mini.streamed
      [Mini.line "data: {'choices':[{'delta':{'content':'Hi'}}]}"] in
  let service := OpenAI (OpenAIService.new (js "key") None None) in
  chat service [] VUndefined (Some Mini.listener) stream
  = chat service [] VUndefined (Some (fun _ _ => Some TypeError)) stream /\
  outcome (chat service [] VUndefined (Some (fun _ _ => Some TypeError)) stream)
  = Normal (Mini.str "Hi").
Proof.
  intros stream service. split; [|reflexivity].
  apply line_framed_ignores_callback_exceptions. exact I.
Defined.

Section CallbackThrows.
Context {num : JSNumber} {rt : Runtime}.

Lemma for_of_threw f items st :
  exists new,
    calls (fst (GoogleService.for_of f items st)) = calls st ++ new /\
    (threw f (calls st) new = true ->
     exists e, snd (GoogleService.for_of f items st) = Throw e).
Proof.
  revert st. induction items as [|data rest IH]; intros st; simpl.
  - exists []. split; [now rewrite app_nil_r | discriminate].
  - destruct (GoogleService.has_text data) as [test|e];
      [|exists []; split; [now rewrite app_nil_r | discriminate]].
    destruct (truthy test); [|apply IH].
    destruct (GoogleService.part_text data) as [x|e];
      [|exists []; split; [now rewrite app_nil_r | discriminate]].
    unfold forward. destruct (ToString x) as [s|e];
      [|exists []; split; [now rewrite app_nil_r | discriminate]].
    destruct (f (calls st) x) as [e|] eqn:E.
    + exists [x]. split; [reflexivity|]. intros _. now exists e.
    + destruct (IH {| fullResponse := fullResponse st ++ s;
                      calls := calls st ++ [x] |}) as (new & Hc & Ht).
      exists (x :: new). cbn [calls] in Hc, Ht. split.
      * rewrite Hc. now rewrite <- app_assoc.
      * cbn [threw]. rewrite E. exact Ht.
Qed.

End CallbackThrows.

(** X3. For Google an exception thrown by the callback is not contained:
    the loop over the array sits inside the [try] whose [catch] reports a
    parse failure, so when some call of the callback threw, the call fails
    with that parse-failure error, whatever the callback threw. *)
Theorem Google_callback_exception_fails_call
  {num : JSNumber} {rt : Runtime}
  (self : fields) (messages : list ChatMessage) (options : value)
  (onStream : callback) (net : fetched) :
  let run := chat (Google self) messages options (Some onStream) net in
  threw onStream [] (deltas run) = true ->
  outcome run = Throw (Error (js "解析 Google API 响应失败")).
Proof.
  intros run. subst run. cbn [chat]. unfold GoogleService.chat.
  destruct net as [e|response]; [discriminate|].
  destruct (negb (ok response)); [discriminate|].
  unfold GoogleService.read_buffer.
  destruct (GoogleService.read_all (body response)) as [buffer|e];
    [|discriminate].
  unfold GoogleService.parse_buffer.
  destruct (JSON_parse (trim buffer)) as [v|]; [|discriminate].
  destruct v; try discriminate.
  destruct (for_of_threw onStream items start) as (new & Hc & Ht).
  destruct (GoogleService.for_of onStream items start) as [st tried].
  cbn [fst snd calls start app] in Hc, Ht. cbn [settle deltas outcome].
  destruct tried as [u|e]; [|reflexivity].
  intros H. rewrite Hc in H. destruct (Ht H) as (e & He). discriminate.
Qed.

Lemma Google_callback_exception_fails_call_witness :
  let run :=
    chat (Google (GoogleService.new (js "key") None)) [] VUndefined
      (Some (fun before _ =>
               match before with [] => None | _ => Some TypeError end))
      (Mini.streamed
         [Mini.wire "[{'candidates':[{'content':{'parts':[{'text':'a'}]}}]},";
          Mini.wire "{'candidates':[{'content':{'parts':[{'text':'b'}]}}]},";
          Mini.wire "{'candidates':[{'content':{'parts':[{'text':'c'}]}}]}]"]) in
  deltas run = [Mini.str "a"; Mini.str "b"] /\
  outcome run = Throw (Error (js "解析 Google API 响应失败")).
Proof.
  intros run. split; [reflexivity|].
  apply (Google_callback_exception_fails_call
           (GoogleService.new (js "key") None) [] VUndefined
           (fun before _ =>
              match before with [] => None | _ => Some TypeError end)
           (Mini.streamed
         [Mini.wire "[{'candidates':[{'content':{'parts':[{'text':'a'}]}}]},";
          Mini.wire "{'candidates':[{'content':{'parts':[{'text':'b'}]}}]},";
          Mini.wire "{'candidates':[{'content':{'parts':[{'text':'c'}]}}]}]"])).
  reflexivity.
Defined.

(** ** A body that breaks off *)

(** X4. When a read of the body is rejected with [e], [chat] with a
    callback fails with [e]. For OpenAI and Anthropic the callback has by
    then received the deltas of every chunk that arrived, and the text
    accumulated is lost; for Google the callback has received nothing. *)
Theorem broken_stream_fails_after_deltas
  {num : JSNumber} {rt : Runtime}
  (service : AIService) (messages : list ChatMessage) (options : value)
  (onStream : callback) (response : Response)
  (values : list (list byte)) (e : exn) :
  ok response = true ->
  body response = Some {| chunks := values; failure := Some e |} ->
  let run :=
    chat service messages options (Some onStream) (Resolved response) in
  outcome run = Throw e /\
  deltas run
  = match service with
    | Google _ => []
    | _ => flat_map (chunk_deltas (extract_of service)) values
    end.
Proof.
  intros Hok Hbody run. subst run.
  destruct service as [self|self|self].
  - rewrite line_framed_outcome, line_framed_deltas by (simpl; auto).
    rewrite Hbody. split; reflexivity.
  - rewrite line_framed_outcome, line_framed_deltas by (simpl; auto).
    rewrite Hbody. split; reflexivity.
  - cbn [chat]. unfold GoogleService.chat. rewrite Hok. cbn [negb].
    unfold GoogleService.read_buffer, GoogleService.read_all.
    rewrite Hbody. split; reflexivity.
Qed.

Lemma broken_stream_fails_after_deltas_witness :
  let run :=
    chat (Anthropic (AnthropicService.new (js "key") None)) [] VUndefined
      (Some Mini.listener)
      (Resolved
         {| status := 200; statusText := js "OK";
            body := Some
              {| chunks := [Mini.line "data: {'content':[{'text':'Hel'}]}"];
                 failure := Some (Error (js "network error")) |} |}) in
  outcome run = Throw (Error (js "network error")) /\
  deltas run = [Mini.str "Hel"].
Proof.
  intros run.
  exact (broken_stream_fails_after_deltas
           (Anthropic (AnthropicService.new (js "key") None)) [] VUndefined
           Mini.listener
           {| status := 200; statusText := js "OK";
              body := Some
                {| chunks := [Mini.line "data: {'content':[{'text':'Hel'}]}"];
                   failure := Some (Error (js "network error")) |} |}
           (values := [Mini.line "data: {'content':[{'text':'Hel'}]}"])
           (e := Error (js "network error"))
           eq_refl eq_refl).
Defined.

(** ** The filter on blank lines *)

(** X5. In the read loops of OpenAI and Anthropic the filter
    [line.trim() !== ''] changes nothing: a line it drops is no data line,
    so a chunk leaves the same progress with the filter and without it. *)
Theorem blank_line_filter_is_redundant
  {num : JSNumber} {rt : Runtime}
  (extract : value -> completion value) (onStream : callback)
  (st : progress) (chunk : jsstring) :
  fold_left (on_line extract onStream) (lines_of chunk) st
  = fold_left (on_line extract onStream) (split_LF chunk) st.
Proof. now rewrite !fold_on_line, lines_of_deltas. Qed.

(** ** Text that mentions the end marker *)

(** X6. The test for the end marker is [line.includes('[DONE]')], on the
    whole line: a data line whose JSON payload is valid and whose text
    mentions [[DONE]] is dropped like the marker itself, and nothing is
    forwarded for it. *)
Theorem text_mentioning_DONE_is_dropped
  {num : JSNumber} {rt : Runtime}
  (service : AIService) (messages : list ChatMessage) (options : value)
  (onStream : callback) (response : Response)
  (values : list (list byte)) (groups : list (list jsstring)) :
  line_framed service ->
  ok response = true ->
  body response = Some {| chunks := values; failure := None |} ->
  aligned values groups ->
  Forall (fun line => includes line (js "[DONE]") = true \/ blank line)
         (concat groups) ->
  let run :=
    chat service messages options (Some onStream) (Resolved response) in
  deltas run = [] /\ outcome run = Normal (VStr []).
Proof.
  intros Hs Hok Hbody Hal Hall run. subst run.
  rewrite line_framed_outcome, line_framed_deltas by assumption.
  rewrite Hbody. cbn [chunks failure].
  rewrite (aligned_deltas (extract_of service) Hal).
  assert (E : flat_map (line_deltas (extract_of service)) (concat groups) = []).
  { induction Hall as [|l r [Hl|Hl] _ IH]; simpl; [reflexivity| |].
    - now rewrite (line_deltas_DONE (extract_of service) _ Hl).
    - now rewrite (blank_line_deltas (extract_of service) Hl). }
  rewrite E. split; reflexivity.
Qed.

Lemma text_mentioning_DONE_is_dropped_witness :
  let run :=
    chat (OpenAI (OpenAIService.new (js "key") None None)) [] VUndefined
      (Some Mini.listener)
      (Mini.streamed
         [Mini.line
            "data: {'choices':[{'delta':{'content':'send [DONE] last'}}]}"]) in
  deltas run = [] /\ outcome run = Normal (VStr []).
Proof.
  intros run.
  apply text_mentioning_DONE_is_dropped with
    (values :=
       [Mini.line
          "data: {'choices':[{'delta':{'content':'send [DONE] last'}}]}"])
    (groups :=
       [[Mini.text
           "data: {'choices':[{'delta':{'content':'send [DONE] last'}}]}";
         []]]).
  - exact I.
  - reflexivity.
  - reflexivity.
  - split; [reflexivity|].
    repeat constructor; apply LF_freeb_free; reflexivity.
  - cbn [concat app].
    apply Forall_cons; [left; reflexivity|].
    apply Forall_cons; [right; reflexivity|]. apply Forall_nil.
Defined.

(** ** Arguments of the factory *)

(** X7. [createService] passes [baseUrl] to [OpenAIService] only: for an
    identifier of Anthropic or Google the argument is ignored, and for
    every identifier an empty [baseUrl] gives what an absent one gives
    (the constructor of OpenAI reads it with [||]). *)
Theorem createService_baseUrl
  {num : JSNumber} {rt : Runtime}
  (type apiKey : jsstring) (modelName baseUrl : option jsstring) :
  AIServiceFactory.createService type apiKey modelName (Some [])
  = AIServiceFactory.createService type apiKey modelName None /\
  (toLowerCase type <> js "openai" ->
   AIServiceFactory.createService type apiKey modelName baseUrl
   = AIServiceFactory.createService type apiKey modelName None).
Proof.
  unfold AIServiceFactory.createService. split.
  - reflexivity.
  - intros H. now rewrite (jsstring_eqb_neq H).
Qed.

Lemma createService_baseUrl_witness :
  AIServiceFactory.createService (js "Google") (js "key") None
    (Some (js "https://proxy.example/v1"))
  = Normal (Google
      {| modelName := js "gemini-pro"; apiKey := js "key";
         baseUrl := js "https://generativelanguage.googleapis.com/v1beta" |}).
Proof.
  rewrite (proj2 (createService_baseUrl (rt := Mini.engine)
                    (js "Google") (js "key") None
                    (Some (js "https://proxy.example/v1"))));
    [reflexivity | discriminate].
Defined.

(** ** [chat] without a callback *)

(** X8. Without a callback, on a successful response whose JSON body is
    not [null]: when the list the text is read from is missing, OpenAI
    ([choices]) and Anthropic ([content]) fail with a [TypeError], since
    they index the list without [?.], while Google ([candidates], read with
    [?.]) resolves to the empty string, as it does for every body that is
    an array. The callback is not involved. *)
Theorem chat_without_callback_missing_list
  {num : JSNumber} {rt : Runtime}
  (service : AIService) (messages : list ChatMessage) (options : value)
  (response : Response) (data : value) :
  ok response = true ->
  json response = Normal data ->
  isNullish data = false ->
  let run := chat service messages options None (Resolved response) in
  deltas run = [] /\
  match service with
  | OpenAI _ =>
      isNullish (prop data (js "choices")) = true ->
      outcome run = Throw TypeError
  | Anthropic _ =>
      isNullish (prop data (js "content")) = true ->
      outcome run = Throw TypeError
  | Google _ =>
      truthy (prop data (js "candidates")) = false ->
      outcome run = Normal (VStr [])
  end.
Proof.
  intros Hok Hjson Hdata run. subst run.
  destruct service as [self|self|self]; cbn [chat];
    [unfold OpenAIService.chat, OpenAIService.message_content
    |unfold AnthropicService.chat, AnthropicService.reply_text
    |unfold GoogleService.chat, GoogleService.reply_text];
    rewrite Hok; cbn [negb settle deltas outcome]; (split; [reflexivity|]);
    rewrite Hjson; unfold bind; rewrite getProp_present by exact Hdata.
  - intros H. now rewrite getIndex_nullish by exact H.
  - intros H. now rewrite getIndex_nullish by exact H.
  - intros H.
    assert (E : optIndex (prop data (js "candidates")) 0 = VUndefined).
    { unfold optIndex.
      destruct (prop data (js "candidates")) as [| |b|n|s|l|o];
        try reflexivity; try discriminate H.
      destruct s; [reflexivity | discriminate H]. }
    now rewrite E.
Qed.

Lemma chat_without_callback_missing_list_witness :
  let reply :=
    Resolved (Mini.delivered_ok [Mini.wire "{'error':'overloaded'}"]) in
  outcome (chat (OpenAI (OpenAIService.new (js "key") None None))
             [] VUndefined None reply) = Throw TypeError /\
  outcome (chat (Google (GoogleService.new (js "key") None))
             [] VUndefined None reply) = Normal (VStr []).
Proof.
  intros reply. split.
  - refine (proj2 (chat_without_callback_missing_list
             (OpenAI (OpenAIService.new (js "key") None None)) [] VUndefined
             (Mini.delivered_ok [Mini.wire "{'error':'overloaded'}"])
             (data := VObj [(js "error", Mini.str "overloaded")])
             _ _ _) _); reflexivity.
  - refine (proj2 (chat_without_callback_missing_list
             (Google (GoogleService.new (js "key") None)) [] VUndefined
             (Mini.delivered_ok [Mini.wire "{'error':'overloaded'}"])
             (data := VObj [(js "error", Mini.str "overloaded")])
             _ _ _) _); reflexivity.
Defined.

(** ** The request of Google *)

(** X9. The request of [GoogleService.chat] is the same with and without
    a callback (the URL always names [streamGenerateContent]), does not
    depend on the answer of the network, and depends on [options] through
    [temperature], [top_p] and [max_tokens] only. *)
Theorem Google_request_reads_three_options
  {num : JSNumber} {rt : Runtime}
  (self : fields) (messages : list ChatMessage) (options options' : value)
  (onStream onStream' : option callback) (net net' : fetched) :
  optProp options (js "temperature") = optProp options' (js "temperature") ->
  optProp options (js "top_p") = optProp options' (js "top_p") ->
  optProp options (js "max_tokens") = optProp options' (js "max_tokens") ->
  sent (chat (Google self) messages options onStream net)
  = sent (chat (Google self) messages options' onStream' net').
Proof.
  intros Ht Hp Hm.
  assert (R : GoogleService.request self messages options
              = GoogleService.request self messages options').
  { unfold GoogleService.request. now rewrite Ht, Hp, Hm. }
  cbn [chat]. unfold GoogleService.chat. rewrite R.
  destruct net as [e|response], net' as [e'|response'];
    repeat match goal with
           | |- context [if ?c then _ else _] => destruct c
           | |- context [match ?o with Some _ => _ | None => _ end] =>
               destruct o
           | |- context [let (_, _) := ?p in _] => destruct p
           end; reflexivity.
Qed.

Lemma Google_request_reads_three_options_witness :
  sent (chat (Google (GoogleService.new (js "key") None)) []
          (VObj [(js "topP", Mini.int 1); (js "maxOutputTokens", Mini.int 5)])
          (Some Mini.listener) (Mini.streamed []))
  = sent (chat (Google (GoogleService.new (js "key") None)) []
            VUndefined None (Rejected TypeError)).
Proof.
  apply Google_request_reads_three_options; reflexivity.
Defined.

(** ** The default of [max_tokens] *)

Section MaxTokens.
Context {num : JSNumber}.

Lemma absent_property_reads_undefined (options : value) k :
  lookup k (ownProps options) = None -> optProp options k = VUndefined.
Proof.
  unfold optProp. destruct options; simpl; try reflexivity.
  now intros ->.
Qed.

End MaxTokens.

(** X10. In the body of the Anthropic request [max_tokens] is 1000 exactly
    when [options] has no property of that name. A property that is
    present wins, whatever its value: the field is written as
    [options?.max_tokens || 1000], but the spread that follows writes the
    value of [options] over it, also a falsy one. *)
Theorem Anthropic_max_tokens
  {num : JSNumber} {rt : Runtime}
  (self : fields) (messages : list ChatMessage) (options : value)
  (onStream : option callback) (net : fetched) :
  NoDup (map fst (ownProps options)) ->
  exists object,
    Request.body (sent (chat (Anthropic self) messages options onStream net))
    = Some (JSON_stringify (VObj object)) /\
    (lookup (js "max_tokens") (ownProps options) = None ->
     lookup (js "max_tokens") object = Some (VNum (Number_ofZ 1000))) /\
    (forall v, lookup (js "max_tokens") (ownProps options) = Some v ->
               lookup (js "max_tokens") object = Some v).
Proof.
  intros Hnd. cbn [chat]. eexists. split.
  - unfold AnthropicService.chat.
    destruct net as [e|response];
      [|destruct (negb (ok response));
        [|destruct onStream as [f|];
          [destruct (read_lines AnthropicService.event_text f
                       (body response))|]]];
      reflexivity.
  - unfold spread. split.
    + intros H. rewrite lookup_copied_absent by exact H.
      rewrite (absent_property_reads_undefined options _ H). reflexivity.
    + intros v H. now apply lookup_copied.
Qed.

Lemma Anthropic_max_tokens_witness :
  Request.body
    (sent (chat (Anthropic (AnthropicService.new (js "key") None)) []
             (VObj [(js "max_tokens", Mini.int 0)]) None (Mini.streamed [])))
  = Some (Mini.text
      "{'model':'claude-3-opus','messages':[],'max_tokens':0,'stream':false}")
  /\
  exists object,
    Request.body
      (sent (chat (Anthropic (AnthropicService.new (js "key") None)) []
               (VObj [(js "max_tokens", Mini.int 0)]) None (Mini.streamed [])))
    = Some (JSON_stringify (VObj object)) /\
    lookup (js "max_tokens") object = Some (Mini.int 0).
Proof.
  split; [reflexivity|].
  destruct (Anthropic_max_tokens
              (AnthropicService.new (js "key") None) []
              (VObj [(js "max_tokens", Mini.int 0)]) None (Mini.streamed []))
    as (object & Hbody & _ & Hpresent).
  - repeat constructor. intros [].
  - exists object. split; [exact Hbody|]. apply Hpresent. reflexivity.
Defined.

(** * Properties of the callers *)

(** ** What the view shows *)

Section View.
Context {num : JSNumber}.

Lemma append_chunk_nil assistantId (messages : list MainArea.Message) :
  MainArea.append_chunk assistantId [] messages = messages.
Proof.
  unfold MainArea.append_chunk. induction messages as [|m r IH]; simpl.
  - reflexivity.
  - rewrite IH. destruct (jsstring_eqb (MainArea.id m) assistantId);
      [|reflexivity].
    destruct m. simpl. now rewrite app_nil_r.
Qed.

Lemma append_chunk_twice assistantId a b (messages : list MainArea.Message) :
  MainArea.append_chunk assistantId b
    (MainArea.append_chunk assistantId a messages)
  = MainArea.append_chunk assistantId (a ++ b) messages.
Proof.
  unfold MainArea.append_chunk. rewrite map_map. apply map_ext.
  intros m. destruct (jsstring_eqb (MainArea.id m) assistantId) eqn:E; simpl.
  - rewrite E. now rewrite app_assoc.
  - now rewrite E.
Qed.

Lemma onChunk_displayed assistantId chunk messages :
  fst (MainArea.onChunk assistantId chunk messages)
  = MainArea.append_chunk assistantId (displayed [chunk]) messages.
Proof.
  unfold MainArea.onChunk, displayed. simpl.
  destruct chunk as [| |b|n|s|items|props]; simpl;
    try (now rewrite append_chunk_nil).
  - destruct b; now rewrite append_chunk_nil.
  - destruct (Number_isTruthy n); now rewrite append_chunk_nil.
  - destruct s as [|c s]; [now rewrite append_chunk_nil|].
    destruct (jsstring_eqb (trim (c :: s)) []); simpl.
    + now rewrite append_chunk_nil.
    + now rewrite app_nil_r.
Qed.

End View.

(** X11. The callback of [handleSendMessage] adds to the view only the
    chunks that are strings with something else than white space in them.
    After any sequence of chunks, the messages whose id is [assistantId]
    have their content followed by these chunks in order, and every other
    message, the order and the number of messages are as before. So a
    chunk that is a single space or line feed never reaches the view,
    although it is part of the text [chat] resolves to. *)
Theorem view_shows_non_blank_chunks
  {num : JSNumber}
  (assistantId : jsstring) (chunks : list value)
  (messages : list MainArea.Message) :
  MainArea.view assistantId chunks messages
  = map (fun msg =>
           if jsstring_eqb (MainArea.id msg) assistantId then
             {| MainArea.id := MainArea.id msg;
                MainArea.role := MainArea.role msg;
                MainArea.content := MainArea.content msg ++ displayed chunks |}
           else msg)
        messages.
Proof.
  change (MainArea.view assistantId chunks messages
          = MainArea.append_chunk assistantId (displayed chunks) messages).
  unfold MainArea.view. revert messages.
  induction chunks as [|chunk rest IH]; intros messages.
  - simpl. now rewrite append_chunk_nil.
  - cbn [fold_left]. rewrite IH, onChunk_displayed, append_chunk_twice.
    f_equal. unfold displayed. cbn [flat_map]. now rewrite app_nil_r.
Qed.

(** The stream "Hello", " ", "world" resolves to "Hello world" and is
    shown as "Helloworld". *)
Lemma view_loses_the_space :
  let run :=
    chat (OpenAI (OpenAIService.new (js "key") None None)) [] VUndefined
      (Some (MainArea.listener (js "assistant-1")))
      (Mini.streamed
         [Mini.line "data: {'choices':[{'delta':{'content':'Hello'}}]}";
          Mini.line "data: {'choices':[{'delta':{'content':' '}}]}";
          Mini.line "data: {'choices':[{'delta':{'content':'world'}}]}"]) in
  outcome run = Normal (Mini.str "Hello world") /\
  MainArea.view (js "assistant-1") (deltas run)
    [{| MainArea.id := js "user-0"; MainArea.role := js "user";
        MainArea.content := js "Hi" |};
     {| MainArea.id := js "assistant-1"; MainArea.role := js "assistant";
        MainArea.content := [] |}]
  = [{| MainArea.id := js "user-0"; MainArea.role := js "user";
        MainArea.content := js "Hi" |};
     {| MainArea.id := js "assistant-1"; MainArea.role := js "assistant";
        MainArea.content := js "Helloworld" |}].
Proof. split; reflexivity. Qed.

(** ** The options the view passes to Google *)

(** X12. [handleSendMessage] names the options for Google [topP] and
    [maxOutputTokens], while [GoogleService.chat] reads [top_p] and
    [max_tokens] from its options: whatever the settings of the view,
    only [temperature] reaches the [generationConfig] of the request, and
    the two other fields are [undefined] there. *)
Theorem Google_receives_temperature_only
  {num : JSNumber} {rt : Runtime}
  (self : fields) (messages : list ChatMessage) (aiConfig : value)
  (onStream : option callback) (net : fetched) :
  Request.body
    (sent (chat (Google self) messages
                (MainArea.apiOptions (js "google") aiConfig) onStream net))
  = Some (JSON_stringify (VObj
      [(js "contents", VArr (map GoogleService.content_value messages));
       (js "generationConfig", VObj
         [(js "temperature", prop aiConfig (js "temperature"));
          (js "topP", VUndefined);
          (js "maxOutputTokens", VUndefined)])])).
Proof.
  assert (R : Request.body
                (GoogleService.request self messages
                   (MainArea.apiOptions (js "google") aiConfig))
              = Some (JSON_stringify (VObj
      [(js "contents", VArr (map GoogleService.content_value messages));
       (js "generationConfig", VObj
         [(js "temperature", prop aiConfig (js "temperature"));
          (js "topP", VUndefined);
          (js "maxOutputTokens", VUndefined)])]))).
  { unfold GoogleService.request. cbn [Request.body].
    change (MainArea.apiOptions (js "google") aiConfig)
      with (VObj (filter (fun kv => negb (MainArea.isUndefined (snd kv)))
         [(js "temperature", prop aiConfig (js "temperature"));
          (js "topP", prop aiConfig (js "top_p"));
          (js "maxOutputTokens", prop aiConfig (js "max_tokens"))])).
    cbn [filter snd].
    destruct (prop aiConfig (js "temperature")) eqn:Et;
      destruct (prop aiConfig (js "top_p"));
      destruct (prop aiConfig (js "max_tokens")); reflexivity. }
  cbn [chat]. unfold GoogleService.chat.
  destruct net as [e|response]; [exact R|].
  destruct (negb (ok response)); [exact R|].
  destruct onStream as [f|]; [|exact R].
  destruct (GoogleService.read_buffer f (body response)). exact R.
Qed.

(** ** The model list of the settings *)



Lemma filter_absent (name : jsstring) (l : list jsstring) :
  ~ In name l -> filter (fun m => negb (jsstring_eqb m name)) l = l.
Proof.
  induction l as [|m r IH]; intros H; [reflexivity|].
  simpl. rewrite jsstring_eqb_neq.
  - simpl. f_equal. apply IH. intros F. apply H. now right.
  - intros ->. apply H. now left.
Qed.

(** X14. Adding a model and removing it again: for a name that is not
    blank, [handleAddModel] appends the trimmed name and selects it; when
    the list had at least one model and did not have that name,
    [handleRemoveModel] then gives the list back as it was, with its
    first model selected, whatever was selected before. *)
Theorem add_then_remove_model
  (customModelName : jsstring) (config : ModelConfigTab.ProviderConfig) :
  trim customModelName <> [] ->
  ~ In (trim customModelName) (ModelConfigTab.availableModels config) ->
  ModelConfigTab.availableModels config <> [] ->
  exists added,
    ModelConfigTab.handleAddModel customModelName config = Some added /\
    ModelConfigTab.modelName added = Some (trim customModelName) /\
    ModelConfigTab.availableModels added
    = ModelConfigTab.availableModels config ++ [trim customModelName] /\
    ModelConfigTab.handleRemoveModel added
    = Some {| ModelConfigTab.apiKey := ModelConfigTab.apiKey config;
              ModelConfigTab.baseUrl := ModelConfigTab.baseUrl config;
              ModelConfigTab.modelName :=
                hd_error (ModelConfigTab.availableModels config);
              ModelConfigTab.availableModels :=
                ModelConfigTab.availableModels config |}.
Proof.
  intros Hname Hfresh Hmodels.
  unfold ModelConfigTab.handleAddModel.
  destruct (trim customModelName) as [|c n] eqn:E; [congruence|].
  eexists. split; [reflexivity|]. split; [reflexivity|].
  split; [reflexivity|].
  unfold ModelConfigTab.handleRemoveModel.
  cbn [ModelConfigTab.modelName ModelConfigTab.availableModels
       ModelConfigTab.apiKey ModelConfigTab.baseUrl].
  assert (L : (1 <? length (ModelConfigTab.availableModels config
                            ++ [c :: n]))%nat = true).
  { apply Nat.ltb_lt. rewrite length_app. simpl.
    destruct (ModelConfigTab.availableModels config); [congruence|].
    simpl. lia. }
  rewrite L.
  assert (F : filter (fun m => negb (jsstring_eqb m (c :: n)))
                (ModelConfigTab.availableModels config ++ [c :: n])
              = ModelConfigTab.availableModels config).
  { rewrite filter_app. simpl. rewrite jsstring_eqb_refl. simpl.
    rewrite app_nil_r. now apply filter_absent. }
  now rewrite F.
Qed.

Lemma add_then_remove_model_witness :
  let config :=
    {| ModelConfigTab.apiKey := js "key";
       ModelConfigTab.baseUrl := js "https://api.openai.com/v1";
       ModelConfigTab.modelName := Some (js "gpt-4");
       ModelConfigTab.availableModels := [js "gpt-3.5-turbo"; js "gpt-4"] |} in
  exists added,
    ModelConfigTab.handleAddModel (js "  gpt-4o ") config = Some added /\
    ModelConfigTab.modelName added = Some (js "gpt-4o") /\
    ModelConfigTab.availableModels added
    = [js "gpt-3.5-turbo"; js "gpt-4"; js "gpt-4o"] /\
    ModelConfigTab.handleRemoveModel added
    = Some {| ModelConfigTab.apiKey := js "key";
              ModelConfigTab.baseUrl := js "https://api.openai.com/v1";
              ModelConfigTab.modelName := Some (js "gpt-3.5-turbo");
              ModelConfigTab.availableModels :=
                [js "gpt-3.5-turbo"; js "gpt-4"] |}.
Proof.
  intros config.
  refine (add_then_remove_model (js "  gpt-4o ") config _ _ _).
  - discriminate.
  - intros [H|[H|[]]]; discriminate H.
  - discriminate.
Defined.

(** ** The history list *)

(** X15. Deleting a history item removes every item with its id and
    keeps the others in their order; so deleting the item that
    [handleFirstMessage] has just put in front, under an id that no older
    item has, gives the list back as it was. *)
Theorem delete_after_first_message
  (newId firstMessage itemId : jsstring) (prev : list App.HistoryItem) :
  (forall item, In item (App.deleteItem itemId prev) <->
                In item prev /\ App.id item <> itemId) /\
  ((forall item, In item prev -> App.id item <> newId) ->
   App.deleteItem newId (App.handleFirstMessage newId firstMessage prev)
   = prev).
Proof.
  split.
  - intros item. unfold App.deleteItem. rewrite filter_In, negb_true_iff.
    split; intros [Hin Hne]; (split; [exact Hin|]).
    + intros E. rewrite E, jsstring_eqb_refl in Hne. discriminate.
    + now apply jsstring_eqb_neq.
  - intros Hfresh. unfold App.deleteItem, App.handleFirstMessage.
    cbn [filter App.id]. rewrite jsstring_eqb_refl. cbn [negb].
    induction prev as [|item rest IH]; [reflexivity|].
    cbn [filter]. rewrite jsstring_eqb_neq by (apply Hfresh; now left).
    cbn [negb]. f_equal. apply IH. intros i Hi. apply Hfresh. now right.
Qed.

Lemma delete_after_first_message_witness :
  let older :=
    [{| App.id := js "7f1c"; App.icon := js "💬"; App.text := js "Hello" |}] in
  App.deleteItem (js "a2e0")
    (App.handleFirstMessage (js "a2e0") (js "How are you?") older)
  = older.
Proof.
  intros older.
  refine (proj2 (delete_after_first_message (js "a2e0") (js "How are you?")
                   (js "a2e0") older) _).
  intros item [<-|[]]. discriminate.
Defined.

(** ** The settings of the view in the request body *)

(** X16. With the options that [handleSendMessage] builds, the body of
    the request carries the fields of the transport untouched and, after
    them, the settings of the view under their names: five for OpenAI,
    three for Anthropic. For Anthropic [max_tokens] is the setting of the
    view as it is, in the place of the field of the transport, so the
    default of 1000 never applies on this path. *)
Theorem view_settings_in_request_body
  {num : JSNumber} {rt : Runtime}
  (self : fields) (messages : list ChatMessage) (aiConfig : value)
  (onStream : option callback) (net : fetched) :
  Request.body
    (sent (chat (OpenAI self) messages
                (MainArea.apiOptions (js "openai") aiConfig) onStream net))
  = Some (JSON_stringify (VObj
      [(js "model", VStr (modelName self));
       (js "messages", VArr (map message_value messages));
       (js "stream", VBool (isSome onStream));
       (js "temperature", prop aiConfig (js "temperature"));
       (js "max_tokens", prop aiConfig (js "max_tokens"));
       (js "top_p", prop aiConfig (js "top_p"));
       (js "frequency_penalty", prop aiConfig (js "frequency_penalty"));
       (js "presence_penalty", prop aiConfig (js "presence_penalty"))])) /\
  Request.body
    (sent (chat (Anthropic self) messages
                (MainArea.apiOptions (js "anthropic") aiConfig) onStream net))
  = Some (JSON_stringify (VObj
      [(js "model", VStr (modelName self));
       (js "messages", VArr (map message_value messages));
       (js "max_tokens", prop aiConfig (js "max_tokens"));
       (js "stream", VBool (isSome onStream));
       (js "temperature", prop aiConfig (js "temperature"));
       (js "top_p", prop aiConfig (js "top_p"))])).
Proof.
  split; cbn [chat].
  - unfold OpenAIService.chat.
    destruct net as [e|response];
      [|destruct (negb (ok response));
        [|destruct onStream as [f|];
          [destruct (read_lines OpenAIService.delta_content f
                       (body response))|]]];
      reflexivity.
  - unfold AnthropicService.chat.
    destruct net as [e|response];
      [|destruct (negb (ok response));
        [|destruct onStream as [f|];
          [destruct (read_lines AnthropicService.event_text f
                       (body response))|]]];
      reflexivity.
Qed.

(** ** The model name of a created service *)

(** X17. A service that [createService] returns answers [getModelName()]
    with the name it was given, also when that name is the empty string,
    and with the default of its class when no name was given: the default
    of a parameter stands in for [undefined] only, unlike [baseUrl], which
    is read with [||]. *)
Theorem created_service_model_name
  {num : JSNumber} {rt : Runtime}
  (type apiKey : jsstring) (modelName baseUrl : option jsstring)
  (service : AIService) :
  AIServiceFactory.createService type apiKey modelName baseUrl
  = Normal service ->
  getModelName service
  = match modelName with
    | Some name => name
    | None =>
        match service with
        | OpenAI _ => js "gpt-3.5-turbo"
        | Anthropic _ => js "claude-3-opus"
        | Google _ => js "gemini-pro"
        end
    end.
Proof.
  unfold AIServiceFactory.createService.
  destruct (jsstring_eqb (toLowerCase type) (js "openai")).
  - intros H. injection H as <-. now destruct modelName.
  - destruct (jsstring_eqb (toLowerCase type) (js "anthropic")).
    + intros H. injection H as <-. now destruct modelName.
    + destruct (jsstring_eqb (toLowerCase type) (js "google")).
      * intros H. injection H as <-. now destruct modelName.
      * discriminate.
Qed.

Lemma created_service_model_name_witness :
  getModelName
    (OpenAI {| modelName := []; apiKey := js "key";
               baseUrl := js "https://api.openai.com/v1" |}) = [].
Proof.
  exact (created_service_model_name (rt := Mini.engine)
           (js "OpenAI") (js "key") (Some []) (Some []) eq_refl).
Defined.

(** ** The loop over the array of Google *)

Section GoogleLoop.
Context {num : JSNumber} {rt : Runtime}.

Lemma has_text_element data :
  isNullish data = false ->
  GoogleService.has_text data = Normal (element_text data).
Proof.
  intros H. unfold GoogleService.has_text, element_text.
  rewrite getProp_present by exact H. cbn [bind].
  destruct (truthy (prop data (js "candidates"))) eqn:T; [|reflexivity].
  cbn [bind]. unfold getIndex. rewrite (truthy_not_nullish _ T). reflexivity.
Qed.

Lemma for_of_quiet f items st :
  (forall before d, f before d = None) ->
  Forall (fun data => isNullish data = false) items ->
  forallb converts (filter truthy (map element_text items)) = true ->
  GoogleService.for_of f items st
  = (push st (filter truthy (map element_text items)), Normal tt).
Proof.
  intros Hf Hitems. revert st.
  induction Hitems as [|data rest Hd _ IH]; intros st Hconv.
  - simpl. now rewrite push_nil.
  - cbn [GoogleService.for_of map filter] in *.
    rewrite (has_text_element _ Hd).
    destruct (truthy (element_text data)) eqn:T; [|now apply IH].
    rewrite (part_text_tested _ (has_text_element _ Hd) T).
    cbn [forallb] in Hconv. apply andb_prop in Hconv.
    destruct Hconv as [Hc Hrest].
    unfold forward. rewrite (converts_printed _ Hc), Hf, IH by exact Hrest.
    f_equal. unfold push. cbn [fullResponse calls flat_map].
    now rewrite <- !app_assoc.
Qed.

End GoogleLoop.

(** X18. For Google with a callback that returns, on a successful
    response whose buffer parses to an array without [null] elements and
    in which every truthy text can be appended to a string (the
    conversion returns, as it does for every string, number and boolean):
    the callback receives, in the order of the array, the text of every
    element whose text is truthy and nothing for the others, and the call
    resolves to the concatenation of these texts, which is defined. *)
Theorem Google_forwards_texts_in_order
  {num : JSNumber} {rt : Runtime}
  (self : fields) (messages : list ChatMessage) (options : value)
  (onStream : callback) (response : Response)
  (buffer : jsstring) (items : list value) :
  ok response = true ->
  GoogleService.read_all (body response) = Normal buffer ->
  JSON_parse (trim buffer) = Some (VArr items) ->
  (forall before d, onStream before d = None) ->
  Forall (fun data => isNullish data = false) items ->
  forallb converts (filter truthy (map element_text items)) = true ->
  let run :=
    chat (Google self) messages options (Some onStream) (Resolved response) in
  deltas run = filter truthy (map element_text items) /\
  exists text,
    concatenation (deltas run) = Normal text /\
    outcome run = Normal (VStr text).
Proof.
  intros Hok Hread Hparse Hquiet Hitems Hconv run. subst run.
  cbn [chat]. unfold GoogleService.chat. rewrite Hok. cbn [negb].
  unfold GoogleService.read_buffer. rewrite Hread.
  unfold GoogleService.parse_buffer. rewrite Hparse.
  rewrite (for_of_quiet onStream start Hquiet Hitems Hconv).
  cbn [settle deltas outcome push start calls fullResponse app].
  split; [reflexivity|]. eexists. split; [|reflexivity].
  now apply concatenation_printed.
Qed.

Lemma Google_forwards_texts_in_order_witness :
  let run :=
    chat (Google (GoogleService.new (js "key") None)) [] VUndefined
      (Some Mini.listener)
      (Mini.streamed
         [Mini.wire "[{'candidates':[{'content':{'parts':[{'text':'Hel'}]}}]},";
          Mini.wire "{'usageMetadata':{'totalTokenCount':7}},";
          Mini.wire "{'candidates':[{'content':{'parts':[{'text':'lo'}]}}]}]"]) in
  deltas run = [Mini.str "Hel"; Mini.str "lo"] /\
  exists text,
    concatenation (deltas run) = Normal text /\
    outcome run = Normal (VStr text).
Proof.
  intros run.
  refine (Google_forwards_texts_in_order
            (GoogleService.new (js "key") None) [] VUndefined
            Mini.listener
            (Mini.delivered_ok
         [Mini.wire "[{'candidates':[{'content':{'parts':[{'text':'Hel'}]}}]},";
          Mini.wire "{'usageMetadata':{'totalTokenCount':7}},";
          Mini.wire "{'candidates':[{'content':{'parts':[{'text':'lo'}]}}]}]"])
            (items :=
               [VObj [(js "candidates",
                  VArr [VObj [(js "content",
                    VObj [(js "parts", VArr [VObj [(js "text", Mini.str "Hel")]])])]])];
                VObj [(js "usageMetadata",
                  VObj [(js "totalTokenCount", Mini.int 7)])];
                VObj [(js "candidates",
                  VArr [VObj [(js "content",
                    VObj [(js "parts", VArr [VObj [(js "text", Mini.str "lo")]])])]])]])
            eq_refl eq_refl _ _ _ _).
  - reflexivity.
  - reflexivity.
  - repeat constructor.
  - reflexivity.
Defined.

(** A truthy text that cannot be converted: the loop is left through the
    [catch] before the callback is reached, and the call fails. *)
Lemma Google_unconvertible_text_fails_call :
  let run :=
    chat (Google (GoogleService.new (js "key") None)) [] VUndefined
      (Some Mini.listener)
      (Mini.streamed
         [Mini.wire "[{'candidates':[{'content':{'parts':[{'text':'Hel'}]}}]},";
          Mini.wire "{'candidates':[{'content':{'parts':[{'text':{'toString':1}}]}}]},";
          Mini.wire "{'candidates':[{'content':{'parts':[{'text':'lo'}]}}]}]"]) in
  deltas run = [Mini.str "Hel"] /\
  outcome run = Throw (Error (js "解析 Google API 响应失败")).
Proof. intros run. split; reflexivity. Qed.

